(** * pattoo-web: the installer preflight ([setup/install.py]) and the
      daemon launcher ([bin/pattoo_webd.py])

    Shallow embedding of the two scripts and the properties of their
    control flow: which commands are spawned, what is printed, and how the
    process ends. *)

From Stdlib Require Import ZArith NArith List String Ascii Bool Lia.
From Stdlib.Strings Require Import Byte.
From Stdlib Require Import DecimalString.
From Equations Require Import Equations.
Import ListNotations.

(** ** Python values used by the scripts *)

Module Py.

(** A Python [str] is a sequence of Unicode code points; [bytes] is a
    sequence of octets. *)
Definition str := list N.
Definition bytes := list byte.

(** ASCII literal of the source text. *)
Definition lit (s : string) : str :=
  List.map N_of_ascii (list_ascii_of_string s).

(** The double-quote character (code point 34) and the newline. *)
Definition quote : str := [34%N].
Definition nl : N := 10%N.

Fixpoint str_eqb (a b : str) : bool :=
  match a, b with
  | [], [] => true
  | x :: a', y :: b' => N.eqb x y && str_eqb a' b'
  | _, _ => false
  end.

(** [bool(s)] for a string. *)
Definition truthy (s : str) : bool :=
  match s with [] => false | _ => true end.

(** [s.startswith(p)] *)
Fixpoint startswith (p s : str) : bool :=
  match p, s with
  | [], _ => true
  | x :: p', y :: s' => N.eqb x y && startswith p' s'
  | _ :: _, [] => false
  end.

(** [str.isspace] on one code point, as CPython's [Py_UNICODE_ISSPACE]:
    the characters removed by [strip()] without argument. *)
Definition isspace (c : N) : bool :=
  ((9 <=? c) && (c <=? 13) || (28 <=? c) && (c <=? 32)
   || (c =? 133) || (c =? 160) || (c =? 5760)
   || (8192 <=? c) && (c <=? 8202)
   || (c =? 8232) || (c =? 8233) || (c =? 8239) || (c =? 8287)
   || (c =? 12288))%N.

Fixpoint lstrip (s : str) : str :=
  match s with
  | c :: s' => if isspace c then lstrip s' else s
  | [] => []
  end.

Definition rstrip (s : str) : str := rev (lstrip (rev s)).

(** [s.strip()] *)
Definition strip (s : str) : str := rstrip (lstrip s).

(** [s.split(sep, maxsplit)] for a one-character separator; [maxsplit] is
    [None] when the argument is omitted. *)
Definition may_split (k : option nat) : bool :=
  match k with Some 0 => false | _ => true end.

Definition one_less (k : option nat) : option nat :=
  match k with Some n => Some (pred n) | None => None end.

Fixpoint split (sep : N) (k : option nat) (s : str) : list str :=
  match s with
  | [] => [[]]
  | c :: s' =>
      if N.eqb c sep && may_split k
      then [] :: split sep (one_less k) s'
      else match split sep k s' with
           | h :: t => (c :: h) :: t
           | [] => [[c]]
           end
  end.

(** [l[0]] on the result of a split (which is never empty). *)
Definition item0 (l : list str) : str := hd [] l.

(** ['{}'.format(n)] for an integer. *)
Definition str_of_int (n : Z) : str :=
  lit (NilZero.string_of_int (Z.to_int n)).

(** [bool(n)] for an integer. *)
Definition nonzero (n : Z) : bool := negb (Z.eqb n 0).

(** *** [bytes.decode()]: strict UTF-8 *)

Definition cont (b : N) : bool := ((128 <=? b) && (b <=? 191))%N.

Definition within (lo hi b : N) : bool := ((lo <=? b) && (b <=? hi))%N.

Definition push (c : N) (r : option str) : option str :=
  match r with Some s => Some (c :: s) | None => None end.

(** Well-formed byte sequences of the Unicode standard (no overlong
    forms, no surrogates, nothing above U+10FFFF); anything else makes
    Python raise [UnicodeDecodeError]. *)
Fixpoint utf8 (bs : list N) : option str :=
  match bs with
  | [] => Some []
  | b0 :: r0 =>
      if (b0 <? 128)%N then push b0 (utf8 r0)
      else if within 194 223 b0 then
        match r0 with
        | b1 :: r1 =>
            if cont b1
            then push ((b0 - 192) * 64 + (b1 - 128))%N (utf8 r1)
            else None
        | _ => None
        end
      else if within 224 239 b0 then
        match r0 with
        | b1 :: b2 :: r2 =>
            if within (if (b0 =? 224)%N then 160 else 128)
                      (if (b0 =? 237)%N then 159 else 191) b1 && cont b2
            then push ((b0 - 224) * 4096 + (b1 - 128) * 64 + (b2 - 128))%N
                      (utf8 r2)
            else None
        | _ => None
        end
      else if within 240 244 b0 then
        match r0 with
        | b1 :: b2 :: b3 :: r3 =>
            if within (if (b0 =? 240)%N then 144 else 128)
                      (if (b0 =? 244)%N then 143 else 191) b1
               && cont b2 && cont b3
            then push ((b0 - 240) * 262144 + (b1 - 128) * 4096
                       + (b2 - 128) * 64 + (b3 - 128))%N (utf8 r3)
            else None
        | _ => None
        end
      else None
  end.

Definition decode (b : bytes) : option str :=
  utf8 (List.map Byte.to_N b).

End Py.

Import Py.

(** ** Processes: what a run prints, spawns, and how it ends *)

(** Exceptions that can escape the scripts; [ExternalError] stands for
    whatever a collaborator outside the scripts raises. *)
Inductive exn :=
| UnicodeDecodeError
| FileNotFoundError (path : str)
| PermissionError (path : str)
| KeyError (key : str)
| ExternalError (what : str).

(** How a call ends: it returns, the interpreter leaves through
    [sys.exit(code)], or an exception propagates to the caller. *)
Inductive outcome (A : Type) :=
| Ret (a : A)
| Exit (code : Z)
| Raise (e : exn).

Arguments Ret {A} a.
Arguments Exit {A} code.
Arguments Raise {A} e.

Definition returned {A} (o : outcome A) : bool :=
  match o with Ret _ => true | _ => false end.

(** State-and-termination monad over a store [S]. *)
Definition M (S A : Type) := S -> outcome A * S.

Definition ret {S A} (a : A) : M S A := fun st => (Ret a, st).

Definition bind {S A B} (m : M S A) (k : A -> M S B) : M S B :=
  fun st =>
    match m st with
    | (Ret a, st') => k a st'
    | (Exit c, st') => (Exit c, st')
    | (Raise e, st') => (Raise e, st')
    end.

Definition sys_exit {S A} (code : Z) : M S A := fun st => (Exit code, st).
Definition raise {S A} (e : exn) : M S A := fun st => (Raise e, st).

Declare Scope proc_scope.
Delimit Scope proc_scope with proc.
Notation "x <- c ;; k" := (bind c (fun x => k))
  (at level 61, c at next level, right associativity) : proc_scope.
Notation "c ;; k" := (bind c (fun _ => k))
  (at level 61, right associativity) : proc_scope.
Open Scope proc_scope.

(** ** [setup/install.py]

    The functions of the script. The statements at module level, which
    leave with status 2 unless the script lies in a directory ending in
    '/pattoo-web/setup', run before any of them; [ROOT_DIR] is the parent
    directory they compute. *)

Module Install.

(** What [subprocess.Popen(...)] followed by [communicate()] gives: the
    child ran to completion, or something in the [try] block raised. For
    the latter the four strings are the renderings of [sys.exc_info()] and
    of [traceback.format_exc()]. *)
Inductive popen_result :=
| Completed (returncode : Z) (stdoutdata stderrdata : bytes)
| Failed (exc_type exc_value exc_traceback format_exc : str).

(** What opening a file for reading and reading it line by line to its
    end delivers: its text (decoded, line ends translated to '\n'), or the
    exception that [open()] or one of the [readline()] calls raises. *)
Inductive file_read :=
| Text (text : str)
| ReadError (e : exn).

(** The operating system as the script sees it. [isfile] is
    [os.path.isfile] and [open_read p] what [open(p, 'r')] and the reads
    that follow it deliver; the two are independent, as a regular file need
    not be readable or hold well-formed text. [Popen] may answer according
    to the commands spawned so far. *)
Record world := {
  ROOT_DIR : str;
  isfile : str -> bool;
  open_read : str -> file_read;
  isdir : str -> bool;
  environ : str -> option str;
  Popen : list (list str) -> list str -> popen_result
}.

(** [regular_file w p = Some text]: [p] is a regular file that opens and
    reads to its end as [text]. *)
Definition regular_file (w : world) (p : str) : option str :=
  if isfile w p
  then match open_read w p with
       | Text text => Some text
       | ReadError _ => None
       end
  else None.

(** Hosts on which the regular files are the readable ones: the file
    system given as a map from paths to texts. *)
Definition present (files : str -> option str) (p : str) : bool :=
  match files p with Some _ => true | None => false end.

Definition reading (files : str -> option str) (p : str) : file_read :=
  match files p with
  | Some text => Text text
  | None => ReadError (FileNotFoundError p)
  end.

(** What a run leaves behind: the arguments of each [print], and the
    argument vector of each process spawned, both in order. *)
Record state := {
  printed : list str;
  spawned : list (list str)
}.

Definition start : state := {| printed := []; spawned := [] |}.

(** [os.sep]; the script only runs from a path ending in
    '/pattoo-web/setup'. *)
Definition os_sep : str := lit "/".

(** *** Text handling and messages *)

(** [_fp.readline()]: the next line with its '\n', the rest of a last
    line without one, or the empty string at the end of the file; and the
    file position after it. *)
Fixpoint readline (_fp : str) : str * str :=
  match _fp with
  | [] => ([], [])
  | c :: rest =>
      if N.eqb c nl then ([c], rest)
      else let (line, rest') := readline rest in (c :: line, rest')
  end.

Lemma readline_shrinks (_fp : str) :
  List.length (snd (readline _fp))
  + (if truthy (fst (readline _fp)) then 1 else 0) <= List.length _fp.
Proof.
  induction _fp as [|c rest IH]; simpl; [lia|].
  destruct (N.eqb c nl); simpl; [lia|].
  destruct (readline rest) as [line rest']; simpl in *.
  destruct (truthy line); lia.
Qed.

(** Is the stripped line a comment or blank: the test
    [True in [_line.startswith('#'), bool(_line) is False]]. *)
Definition skipped (_line : str) : bool :=
  startswith (lit "#") _line || negb (truthy _line).

(** The [while line:] loop of [check_pip3]. *)
Equations? read_loop (line _fp : str) (lines : list str) : list str
  by wf (List.length _fp + (if truthy line then 1 else 0)) lt :=
read_loop [] _fp lines := lines;
read_loop (c :: l) _fp lines :=
  read_loop (fst (readline _fp)) (snd (readline _fp))
    (if skipped (strip (c :: l)) then lines
     else lines ++ [strip (c :: l)]).
Proof.
  pose proof (readline_shrinks _fp). lia.
Qed.

(** The package of a requirement line. *)
Definition package_of (line : str) : str :=
  let package := item0 (split 61 (Some 1) line) in
  item0 (split 62 (Some 1) package).

Definition requirement_lines (text : str) : list str :=
  read_loop (fst (readline text)) (snd (readline text)) [].

Definition not_installed (package : str) : str :=
  lit "Python3 " ++ quote ++ package ++ quote
  ++ lit " package not installed or pip3 command not found. Please fix.".

Definition bug_message (exc_type exc_value exc_traceback : str) : str :=
  lit "Bug: Exception Type:" ++ exc_type
  ++ lit ", Exception Instance: " ++ exc_value
  ++ lit ", Stack Trace Object: " ++ exc_traceback ++ lit "]    ".

Definition PATTOO_CONFIGDIR : str := lit "PATTOO_CONFIGDIR".

Definition env_unset_message : str :=
  lit "Set your PATTOO_CONFIGDIR to point to your configuration directory like this:"
  ++ [nl; nl]
  ++ lit "$ export PATTOO_CONFIGDIR=/path/to/configuration/directory"
  ++ [nl; nl]
  ++ lit "Then run this command again." ++ [nl].

Definition dir_missing_message : str :=
  lit "Set your PATTOO_CONFIGDIR cannot be found. Set the variable to point to an existing directory:"
  ++ [nl; nl]
  ++ lit "$ export PATTOO_CONFIGDIR=/path/to/configuration/directory"
  ++ [nl; nl]
  ++ lit "Then run this command again." ++ [nl].

Definition next_steps_message : str :=
  [nl]
  ++ lit "Hooray successful installation! Panna Cotta Time!" ++ [nl; nl]
  ++ lit "Next Steps:" ++ [nl]
  ++ lit "    1) Start the 'bin/pattoo_webd.py' script to accept agent data."
  ++ [nl]
  ++ lit "    2) Configure your agents to post data to this server."
  ++ [nl; nl]
  ++ lit "Other steps:" ++ [nl]
  ++ lit "    1) You can make pattoo-web a system daemon by running the scripts in the"
  ++ [nl]
  ++ lit "       'setup/systemd' directory. Visit this link for details:"
  ++ [nl; nl]
  ++ lit "       https://github.com/PalisadoesFoundation/pattoo-web/tree/master/setup/systemd"
  ++ [nl; nl].

Section Script.

Variable w : world.

Definition print (s : str) : M state unit :=
  fun st => (Ret tt, {| printed := printed st ++ [s];
                        spawned := spawned st |}).

Definition subprocess (argv : list str) : M state popen_result :=
  fun st => (Ret (Popen w (spawned st) argv),
             {| printed := printed st; spawned := spawned st ++ [argv] |}).

Definition bytes_decode (b : bytes) : M state str :=
  match decode b with
  | Some s => ret s
  | None => raise UnicodeDecodeError
  end.

Fixpoint print_each (messages : list str) : M state unit :=
  match messages with
  | [] => ret tt
  | log_message :: rest => print log_message ;; print_each rest
  end.

Definition _log {A} (message : str) : M state A :=
  print ([nl] ++ lit "PATTOO Error: " ++ message) ;;
  sys_exit 3.

Definition _run_script (cli_string : str) (die : bool)
  : M state (Z * bytes * bytes) :=
  print (lit "Running Command: " ++ quote ++ cli_string ++ quote) ;;
  let do_command_list := split 32 None cli_string in
  r <- subprocess do_command_list ;;
  let '(returncode, stdoutdata, stderrdata, messages) :=
    match r with
    | Completed rc out err => (rc, out, err, [])
    | Failed ty val tb fe => (1%Z, [], [], [bug_message ty val tb; fe])
    end in
  (if nonzero returncode then
     let messages :=
       messages ++ [lit "Return code:" ++ str_of_int returncode] in
     out <- bytes_decode stdoutdata ;;
     let messages :=
       messages ++ map (fun line => lit "STDOUT: " ++ line)
                       (split nl None out) in
     err <- bytes_decode stderrdata ;;
     let messages :=
       messages ++ map (fun line => lit "STDERR: " ++ line)
                       (split nl None err) in
     print_each messages ;;
     if die then sys_exit 2 else ret tt
   else ret tt) ;;
  ret (returncode, stdoutdata, stderrdata).

(** The [for line in lines:] loop of [check_pip3]. *)
Fixpoint check_lines (lines : list str) : M state unit :=
  match lines with
  | [] => ret tt
  | line :: rest =>
      let package := package_of line in
      print (lit "??: Checking package " ++ package) ;;
      let command := lit "pip3 show " ++ package in
      r <- _run_script command false ;;
      let '(returncode, _, _) := r in
      (if nonzero returncode then _log (not_installed package)
       else ret tt) ;;
      print (lit "OK: package " ++ line) ;;
      check_lines rest
  end.

(** [open(p, 'r')] and the [readline()] loop over it. The loop only
    collects lines, so when a read raises nothing is left of it but the
    exception. *)
Definition open_r (p : str) : M state str :=
  match open_read w p with
  | Text text => ret text
  | ReadError e => raise e
  end.

Definition requirements_path : str :=
  ROOT_DIR w ++ os_sep ++ lit "pip_requirements.txt".

Definition check_pip3 : M state unit :=
  let filepath := requirements_path in
  (if isfile w filepath then ret tt
   else _log (lit "Cannot find PIP3 requirements file " ++ filepath)) ;;
  text <- open_r filepath ;;
  check_lines (requirement_lines text).

(** [os.environ[key]] *)
Definition environ_get (key : str) : M state str :=
  match environ w key with
  | Some v => ret v
  | None => raise (KeyError key)
  end.

Definition check_config_path : str :=
  ROOT_DIR w ++ os_sep ++ lit "setup/_check_config.py".

Definition check_config : M state unit :=
  print (lit "??: Checking configuration") ;;
  (match environ w PATTOO_CONFIGDIR with
   | None => _log env_unset_message
   | Some _ => ret tt
   end) ;;
  dir <- environ_get PATTOO_CONFIGDIR ;;
  (if isdir w dir then ret tt else _log dir_missing_message) ;;
  let filepath := check_config_path in
  _run_script filepath true ;;
  print (lit "OK: Configuration check passed").

Definition next_steps : M state unit := print next_steps_message.

Definition main : M state unit :=
  check_pip3 ;;
  check_config ;;
  next_steps.

End Script.

End Install.

(** ** Describing a run *)

Module Obs.

Import Install.

(** The store after printing [msgs] and spawning [argv]. *)
Definition emit (st : state) (msgs : list str) (argv : list (list str))
  : state :=
  {| printed := printed st ++ msgs; spawned := spawned st ++ argv |}.

Definition running (cli_string : str) : str :=
  lit "Running Command: " ++ quote ++ cli_string ++ quote.

Definition argv_of_command (cli_string : str) : list str :=
  split 32 None cli_string.

Definition stdout_lines (out : str) : list str :=
  map (fun line => lit "STDOUT: " ++ line) (split nl None out).

Definition stderr_lines (err : str) : list str :=
  map (fun line => lit "STDERR: " ++ line) (split nl None err).

Definition command_of (line : str) : str :=
  lit "pip3 show " ++ package_of line.

Definition argv_of (line : str) : list str :=
  argv_of_command (command_of line).

Definition checking (line : str) : str :=
  lit "??: Checking package " ++ package_of line.

Definition ok_line (line : str) : str := lit "OK: package " ++ line.

Definition fatal (message : str) : str :=
  [nl] ++ lit "PATTOO Error: " ++ message.

(** What the loop prints for a line whose command exits with code 0. *)
Definition passed (line : str) : list str :=
  [checking line; running (command_of line); ok_line line].

(** Every command of [lines] completes with exit code 0 when the lines
    are checked in order after the processes in [hist]. *)
Fixpoint installed (w : world) (hist : list (list str))
    (lines : list str) : bool :=
  match lines with
  | [] => true
  | line :: rest =>
      match Popen w hist (argv_of line) with
      | Completed rc _ _ =>
          Z.eqb rc 0 && installed w (hist ++ [argv_of line]) rest
      | Failed _ _ _ _ => false
      end
  end.

(** How many lines at the head of [lines] have a command that completes
    with exit code 0, when they are checked in order after [hist]. *)
Fixpoint passing (w : world) (hist : list (list str))
    (lines : list str) : nat :=
  match lines with
  | [] => 0
  | line :: rest =>
      match Popen w hist (argv_of line) with
      | Completed rc _ _ =>
          if Z.eqb rc 0
          then S (passing w (hist ++ [argv_of line]) rest)
          else 0
      | Failed _ _ _ _ => 0
      end
  end.

Definition kept (lines : list str) : list str :=
  filter (fun _line => negb (skipped _line)) (map strip lines).

(** The part of a string before the first character satisfying [p]. *)
Fixpoint before (p : N -> bool) (s : str) : str :=
  match s with
  | c :: s' => if p c then [] else c :: before p s'
  | [] => []
  end.

Definition is_eq_or_gt (c : N) : bool := N.eqb 61 c || N.eqb 62 c.

End Obs.

(** ** [bin/pattoo_webd.py]

    [main] of the launcher. [Agent], [AgentAPI] and [AgentCLI] come from
    the [pattoo_shared] package and [Config] from [pattoo_web]; they are
    taken as given. *)

Module Webd.

(** Modelled from the spec: [pattoo_web/constants.py] is not among the
    sources; the two names are the values that
    [tests/test_pattoo_web/test_constants.py] asserts for them. *)
Definition PATTOO_WEBD_NAME : str := lit "pattoo_webd".
Definition PATTOO_WEBD_PROXY : str := lit "pattoo_webd-gunicorn".

Section Daemon.

(** The configuration object, the WSGI application and the value a control
    call hands back are opaque to the launcher. *)
Variables Cfg App R : Type.

(** The agent objects of [pattoo_shared.agent], by the arguments [main]
    constructs them with. *)
Inductive agent :=
| Agent (parent : str) (config : Cfg)
| AgentAPI (parent child : str) (app : App) (config : Cfg).

Definition agent_name (a : agent) : str :=
  match a with
  | Agent parent _ => parent
  | AgentAPI parent _ _ _ => parent
  end.

Definition agent_config (a : agent) : Cfg :=
  match a with
  | Agent _ config => config
  | AgentAPI _ _ _ config => config
  end.

(** The collaborators: [Config()] may end the process; [AgentCLI.control]
    answers according to the control calls made before it, and may return
    a value, leave through [sys.exit] or raise. *)
Record world := {
  Config : outcome Cfg;
  PATTOO_WEBD : App;
  control : list agent -> agent -> outcome R
}.

Variable w : world.

(** The store is the sequence of control calls made so far. *)
Definition new_config : M (list agent) Cfg :=
  fun calls => (Config w, calls).

Definition cli_control (a : agent) : M (list agent) R :=
  fun calls => (control w calls a, calls ++ [a]).

Definition main : M (list agent) unit :=
  config <- new_config ;;
  let agent_gunicorn := Agent PATTOO_WEBD_PROXY config in
  let agent_api :=
    AgentAPI PATTOO_WEBD_NAME PATTOO_WEBD_PROXY (PATTOO_WEBD w) config in
  cli_control agent_api ;;
  cli_control agent_gunicorn ;;
  ret tt.

End Daemon.

Arguments Agent {Cfg App} parent config.
Arguments AgentAPI {Cfg App} parent child app config.
Arguments agent_name {Cfg App} a.
Arguments agent_config {Cfg App} a.
Arguments Config {Cfg App R} w.
Arguments PATTOO_WEBD {Cfg App R} w.
Arguments control {Cfg App R} w calls a.
Arguments main {Cfg App R} w calls.

(** Two runtimes with trivial configuration and application: one whose
    control calls all return, one whose control calls all leave the
    process with status 1. *)
Definition obliging : world unit unit unit :=
  {| Config := Ret tt; PATTOO_WEBD := tt; control := fun _ _ => Ret tt |}.

Definition refusing : world unit unit unit :=
  {| Config := Ret tt; PATTOO_WEBD := tt; control := fun _ _ => Exit 1 |}.

End Webd.

(** ** Concrete hosts *)

Module Hosts.

Import Install.

Fixpoint argv_eqb (a b : list str) : bool :=
  match a, b with
  | [], [] => true
  | x :: a', y :: b' => str_eqb x y && argv_eqb a' b'
  | _, _ => false
  end.

Definition nowhere : str -> option str := fun _ => None.

(** The file system holding the requirements file of an installation
    under /opt/pattoo-web, and nothing else. *)
Definition only_requirements (text : str) : str -> option str :=
  fun p =>
    if str_eqb p (lit "/opt/pattoo-web/pip_requirements.txt")
    then Some text else None.

(** A host on which every command exits with code 1 after writing the
    single byte 0xFF to its standard output. *)
Definition garbled : world :=
  {| ROOT_DIR := lit "/opt/pattoo-web";
     isfile := present nowhere;
     open_read := reading nowhere;
     isdir := fun _ => false;
     environ := nowhere;
     Popen := fun _ _ => Completed 1 [xff] [] |}.

(** A host on which no command can be launched. *)
Definition no_launch : world :=
  {| ROOT_DIR := lit "/opt/pattoo-web";
     isfile := present nowhere;
     open_read := reading nowhere;
     isdir := fun _ => false;
     environ := nowhere;
     Popen := fun _ _ =>
       Failed (lit "<class 'FileNotFoundError'>")
              (lit "[Errno 2] No such file or directory: 'pip3'")
              (lit "<traceback object>")
              (lit "Traceback (most recent call last):") |}.

Definition requirements_demo : str :=
  lit "# web" ++ [nl] ++ lit "requests>=2.0" ++ [nl] ++ [nl]
  ++ lit "PyYAML" ++ [nl] ++ lit "Flask==1.1" ++ [nl].

Definition not_found : bytes :=
  list_byte_of_string "WARNING: Package(s) not found: PyYAML".

(** A host with a requirements file naming three packages, of which
    [PyYAML] is not installed. *)
Definition missing_yaml : world :=
  {| ROOT_DIR := lit "/opt/pattoo-web";
     isfile := present (only_requirements requirements_demo);
     open_read := reading (only_requirements requirements_demo);
     isdir := fun _ => false;
     environ := nowhere;
     Popen := fun _ argv =>
       if argv_eqb argv [lit "pip3"; lit "show"; lit "PyYAML"]
       then Completed 1 [] not_found
       else Completed 0 [] [] |}.

(** As [missing_yaml], but the command for [PyYAML] writes the single
    byte 0xFF to its standard output before it exits with code 1. *)
Definition garbled_yaml : world :=
  {| ROOT_DIR := lit "/opt/pattoo-web";
     isfile := present (only_requirements requirements_demo);
     open_read := reading (only_requirements requirements_demo);
     isdir := fun _ => false;
     environ := nowhere;
     Popen := fun _ argv =>
       if argv_eqb argv [lit "pip3"; lit "show"; lit "PyYAML"]
       then Completed 1 [xff] []
       else Completed 0 [] [] |}.

(** A host whose requirements file is there but may not be read. *)
Definition locked : world :=
  {| ROOT_DIR := lit "/opt/pattoo-web";
     isfile := present (only_requirements requirements_demo);
     open_read := fun p => ReadError (PermissionError p);
     isdir := fun _ => false;
     environ := nowhere;
     Popen := fun _ _ => Completed 0 [] [] |}.

Definition comments_demo : str :=
  lit "# nothing yet" ++ [nl] ++ lit "   " ++ [nl] ++ lit "  # later".

(** A host whose requirements file holds comments and blank lines only. *)
Definition comments_only : world :=
  {| ROOT_DIR := lit "/opt/pattoo-web";
     isfile := present (only_requirements comments_demo);
     open_read := reading (only_requirements comments_demo);
     isdir := fun _ => false;
     environ := nowhere;
     Popen := fun _ _ => Completed 1 [] [] |}.

(** A host with everything in place: one installed requirement, the
    configuration directory set and present, a passing schema check. *)
Definition healthy : world :=
  {| ROOT_DIR := lit "/opt/pattoo-web";
     isfile := present (only_requirements (lit "requests>=2.0" ++ [nl]));
     open_read :=
       reading (only_requirements (lit "requests>=2.0" ++ [nl]));
     isdir := fun p => str_eqb p (lit "/etc/pattoo");
     environ := fun k =>
       if str_eqb k (lit "PATTOO_CONFIGDIR")
       then Some (lit "/etc/pattoo") else None;
     Popen := fun _ _ => Completed 0 [] [] |}.

(** As [healthy], but the configuration directory does not exist. *)
Definition no_config_dir : world :=
  {| ROOT_DIR := lit "/opt/pattoo-web";
     isfile := present nowhere;
     open_read := reading nowhere;
     isdir := fun _ => false;
     environ := fun k =>
       if str_eqb k (lit "PATTOO_CONFIGDIR")
       then Some (lit "/etc/pattoo") else None;
     Popen := fun _ _ => Completed 0 [] [] |}.

End Hosts.

(** ** Further vocabulary for the properties *)

Module Shape.

Import Install Hosts.

(** [sep.join(l)] for a one-character separator. *)
Fixpoint join (sep : N) (l : list str) : str :=
  match l with
  | [] => []
  | [x] => x
  | x :: rest => x ++ sep :: join sep rest
  end.

(** Bytes below 128, and the text they spell. *)
Definition ascii_only (b : bytes) : bool :=
  forallb (fun x => (Byte.to_N x <? 128)%N) b.

Definition text_of (b : bytes) : str := List.map Byte.to_N b.

(** A host set up like [Hosts.healthy] whose schema check exits with
    code 4 after complaining on its standard error. *)
Definition bad_schema : world :=
  {| ROOT_DIR := lit "/opt/pattoo-web";
     isfile := present nowhere;
     open_read := reading nowhere;
     isdir := fun p => str_eqb p (lit "/etc/pattoo");
     environ := fun k =>
       if str_eqb k (lit "PATTOO_CONFIGDIR")
       then Some (lit "/etc/pattoo") else None;
     Popen := fun _ _ =>
       Completed 4 [] (list_byte_of_string "polling_interval missing") |}.

(** A host with its one requirement installed and the configuration
    directory in place, whose schema check exits with code 4. *)
Definition installed_bad_schema : world :=
  {| ROOT_DIR := lit "/opt/pattoo-web";
     isfile := present (regular_file Hosts.healthy);
     open_read := reading (regular_file Hosts.healthy);
     isdir := isdir Hosts.healthy;
     environ := environ Hosts.healthy;
     Popen := fun _ argv =>
       if Hosts.argv_eqb argv [lit "pip3"; lit "show"; lit "requests"]
       then Completed 0 [] []
       else Completed 4 [] (list_byte_of_string "polling_interval missing") |}.

(** A host installed under a directory whose name has a space in it. *)
Definition spaced : world :=
  {| ROOT_DIR := lit "/opt/my apps/pattoo-web";
     isfile := present nowhere;
     open_read := reading nowhere;
     isdir := fun p => str_eqb p (lit "/etc/pattoo");
     environ := fun k =>
       if str_eqb k (lit "PATTOO_CONFIGDIR")
       then Some (lit "/etc/pattoo") else None;
     Popen := fun _ _ => Completed 0 [] [] |}.

Definition two_requirements : str :=
  lit "requests>=2.0" ++ [nl] ++ lit "PyYAML" ++ [nl].

(** A host with a two-line requirements file on which nothing can be
    launched. *)
Definition no_pip : world :=
  {| ROOT_DIR := lit "/opt/pattoo-web";
     isfile := present (only_requirements two_requirements);
     open_read := reading (only_requirements two_requirements);
     isdir := fun _ => false;
     environ := fun _ => None;
     Popen := fun _ _ =>
       Failed (lit "<class 'FileNotFoundError'>")
              (lit "[Errno 2] No such file or directory: 'pip3'")
              (lit "<traceback object>")
              (lit "Traceback (most recent call last):") |}.

(** The first line of the configuration check. *)
Definition announce : str := lit "??: Checking configuration".

(** A launcher runtime whose [Config()] leaves the process. *)
Definition unconfigured : Webd.world unit unit unit :=
  {| Webd.Config := Exit 1; Webd.PATTOO_WEBD := tt;
     Webd.control := fun _ _ => Ret tt |}.

End Shape.

(** * The model at work *)


Example split_eq : split 61 (Some 1) (lit "a=b=c") = [lit "a"; lit "b=c"].
Proof. reflexivity. Qed.
Example split_none : split 61 (Some 1) (lit "abc") = [lit "abc"].
Proof. reflexivity. Qed.
Example split_sp : split 32 None (lit "pip3 show  x") =
  [lit "pip3"; lit "show"; lit ""; lit "x"].
Proof. reflexivity. Qed.
Example strip_ex : strip (lit "  # c ") = lit "# c".
Proof. reflexivity. Qed.
Example int_ex : (str_of_int 0, str_of_int (-9), str_of_int 127) =
  (lit "0", lit "-9", lit "127").
Proof. reflexivity. Qed.
Example dec_ex : decode [x63; xc3; xa9; xe2; x82; xac] = Some [99; 233; 8364]%N.
Proof. reflexivity. Qed.
Example dec_bad : decode [xff] = None /\ decode [xc0; x80] = None
  /\ decode [xed; xa0; x80] = None.
Proof. repeat split; reflexivity. Qed.

Example demo_lines :
  Install.requirement_lines Hosts.requirements_demo
  = [lit "requests>=2.0"; lit "PyYAML"; lit "Flask==1.1"].
Proof. reflexivity. Qed.

Example demo_packages :
  map Install.package_of
      [lit "requests>=2.0"; lit "PyYAML"; lit "Flask==1.1"; lit "a>1=2"]
  = [lit "requests"; lit "PyYAML"; lit "Flask"; lit "a"].
Proof. reflexivity. Qed.

Example demo_missing :
  Install.main Hosts.missing_yaml Install.start
  = (Exit 3,
     {| Install.printed :=
          [lit "??: Checking package requests";
           Obs.running (lit "pip3 show requests");
           lit "OK: package requests>=2.0";
           lit "??: Checking package PyYAML";
           Obs.running (lit "pip3 show PyYAML");
           lit "Return code:1";
           lit "STDOUT: ";
           lit "STDERR: WARNING: Package(s) not found: PyYAML";
           Obs.fatal (Install.not_installed (lit "PyYAML"))];
        Install.spawned :=
          [[lit "pip3"; lit "show"; lit "requests"];
           [lit "pip3"; lit "show"; lit "PyYAML"]] |}).
Proof. vm_compute. reflexivity. Qed.

Example demo_locked :
  Install.main Hosts.locked Install.start
  = (Raise (PermissionError (lit "/opt/pattoo-web/pip_requirements.txt")),
     Install.start).
Proof. vm_compute. reflexivity. Qed.

Example demo_healthy :
  Install.main Hosts.healthy Install.start
  = (Ret tt,
     {| Install.printed :=
          [lit "??: Checking package requests";
           Obs.running (lit "pip3 show requests");
           lit "OK: package requests>=2.0";
           lit "??: Checking configuration";
           Obs.running (lit "/opt/pattoo-web/setup/_check_config.py");
           lit "OK: Configuration check passed";
           Install.next_steps_message];
        Install.spawned :=
          [[lit "pip3"; lit "show"; lit "requests"];
           [lit "/opt/pattoo-web/setup/_check_config.py"]] |}).
Proof. vm_compute. reflexivity. Qed.


(** * Lemmas *)

(** ** The command runner, [_run_script] *)

Module RunScript.

Import Install Obs.

Section Facts.

Variable w : world.

Lemma print_each_emit (ms : list str) (st : state) :
  print_each ms st = (Ret tt, emit st ms []).
Proof.
  revert st. induction ms as [|m ms IH]; intros [p s]; simpl.
  - unfold ret, emit; simpl. now rewrite !app_nil_r.
  - unfold bind, print; simpl. rewrite IH. unfold emit; simpl.
    now rewrite <- app_assoc.
Qed.

Lemma nonzero_true (rc : Z) : rc <> 0%Z -> nonzero rc = true.
Proof.
  intro H. unfold nonzero. destruct (Z.eqb_spec rc 0); [contradiction|easy].
Qed.

(** Exit code 0: the triple comes back, only the progress line is
    printed. *)
Lemma run_zero cli die st out err :
  Popen w (spawned st) (argv_of_command cli) = Completed 0 out err ->
  _run_script w cli die st
  = (Ret (0%Z, out, err), emit st [running cli] [argv_of_command cli]).
Proof.
  intro H. unfold _run_script, bind, print, subprocess; simpl.
  unfold argv_of_command in H. rewrite H. reflexivity.
Qed.

(** Non-zero exit code with output that decodes. *)
Lemma run_nonzero cli die st rc out err so se :
  Popen w (spawned st) (argv_of_command cli) = Completed rc out err ->
  rc <> 0%Z -> decode out = Some so -> decode err = Some se ->
  _run_script w cli die st
  = ((if die then Exit 2 else Ret (rc, out, err)),
     emit st ([running cli; lit "Return code:" ++ str_of_int rc]
              ++ stdout_lines so ++ stderr_lines se)
          [argv_of_command cli]).
Proof.
  intros H Hrc Ho He. unfold _run_script, bind, print, subprocess; simpl.
  unfold argv_of_command in H. rewrite H.
  rewrite (nonzero_true _ Hrc). unfold bytes_decode. rewrite Ho, He.
  unfold ret at 1 2. rewrite print_each_emit. unfold emit; simpl.
  rewrite <- !app_assoc. simpl.
  destruct die; reflexivity.
Qed.

(** Non-zero exit code with output that does not decode. *)
Lemma run_undecodable cli die st rc out err :
  Popen w (spawned st) (argv_of_command cli) = Completed rc out err ->
  rc <> 0%Z ->
  decode out = None \/ decode err = None ->
  _run_script w cli die st
  = (Raise UnicodeDecodeError,
     emit st [running cli] [argv_of_command cli]).
Proof.
  intros H Hrc Hd. unfold _run_script, bind, print, subprocess; simpl.
  unfold argv_of_command in H. rewrite H.
  rewrite (nonzero_true _ Hrc). unfold bytes_decode.
  destruct (decode out) as [so|]; [|reflexivity].
  destruct Hd as [Hd|Hd]; [discriminate|]. rewrite Hd. reflexivity.
Qed.

(** The launch fails. *)
Lemma run_failed cli die st ty val tb fe :
  Popen w (spawned st) (argv_of_command cli) = Failed ty val tb fe ->
  _run_script w cli die st
  = ((if die then Exit 2 else Ret (1%Z, [], [])),
     emit st [running cli; bug_message ty val tb; fe;
              lit "Return code:1"; lit "STDOUT: "; lit "STDERR: "]
          [argv_of_command cli]).
Proof.
  intro H. unfold _run_script, bind, print, subprocess; simpl.
  unfold argv_of_command in H. rewrite H.
  change (nonzero 1) with true. cbv iota.
  change (bytes_decode []) with (@ret state str []).
  unfold ret at 1 2. rewrite print_each_emit. unfold emit; simpl.
  rewrite <- !app_assoc. simpl.
  destruct die; reflexivity.
Qed.

(** Every call spawns exactly one process, however it ends. *)
Lemma run_spawns_one cli die st :
  spawned (snd (_run_script w cli die st))
  = spawned st ++ [argv_of_command cli].
Proof.
  destruct (Popen w (spawned st) (argv_of_command cli))
    as [rc out err|ty val tb fe] eqn:H.
  - destruct (Z.eq_dec rc 0) as [->|Hrc].
    + now rewrite (run_zero _ die _ _ _ H).
    + destruct (decode out) as [so|] eqn:Ho.
      * destruct (decode err) as [se|] eqn:He.
        -- now rewrite (run_nonzero _ die _ _ _ _ _ _ H Hrc Ho He).
        -- rewrite (run_undecodable _ die _ _ _ _ H Hrc); auto.
      * rewrite (run_undecodable _ die _ _ _ _ H Hrc); auto.
  - now rewrite (run_failed _ die _ _ _ _ _ H).
Qed.

End Facts.

End RunScript.

(** ** Reading the requirements file *)

Module Requirements.

Import Install Obs.

(** A trailing newline does not survive [strip()]. *)
Lemma strip_newline (l : str) : strip (l ++ [nl]) = strip l.
Proof.
  unfold strip. induction l as [|c l IH].
  - reflexivity.
  - simpl. destruct (isspace c) eqn:Hc; [exact IH|].
    unfold rstrip. change (c :: l ++ [nl]) with ((c :: l) ++ [nl]).
    rewrite rev_app_distr. reflexivity.
Qed.

(** One [readline()] against [split('\n')]: either the text has a first
    line ended by a newline, or it is a last line without one. *)
Lemma readline_split (text : str) :
  (exists h, readline text = (h ++ [nl], skipn (S (List.length h)) text)
             /\ split nl None text
                = h :: split nl None (skipn (S (List.length h)) text)
             /\ List.length h < List.length text)
  \/ (readline text = (text, []) /\ split nl None text = [text]).
Proof.
  induction text as [|c rest IH].
  - right. split; reflexivity.
  - simpl. destruct (N.eqb c nl) eqn:Hc.
    + left. exists []. apply N.eqb_eq in Hc. subst c. simpl.
      repeat split. apply Nat.lt_0_succ.
    + destruct IH as [(h & Hr & Hs & Hl)|(Hr & Hs)].
      * left. exists (c :: h). rewrite Hr, Hs. simpl.
        repeat split. lia.
      * right. rewrite Hr, Hs. split; reflexivity.
Qed.

Lemma read_loop_split (n : nat) :
  forall text acc, List.length text <= n ->
  read_loop (fst (readline text)) (snd (readline text)) acc
  = acc ++ kept (split nl None text).
Proof.
  induction n as [|n IH]; intros text acc Hn.
  - destruct text; [|simpl in Hn; lia]. simpl. simp read_loop.
    now rewrite app_nil_r.
  - destruct (readline_split text) as [(h & Hr & Hs & Hl)|(Hr & Hs)].
    + rewrite Hr, Hs. cbn [fst snd].
      assert (Hline : h ++ [nl] = hd nl (h ++ [nl]) :: tl (h ++ [nl]))
        by (destruct h; reflexivity).
      rewrite Hline. simp read_loop. rewrite <- Hline.
      rewrite strip_newline, IH.
      * unfold kept; simpl. destruct (skipped (strip h)); simpl;
          [reflexivity | now rewrite <- app_assoc].
      * assert (List.length (skipn (S (List.length h)) text)
                <= List.length text - S (List.length h))
          by (rewrite length_skipn; lia).
        clear IH. lia.
    + rewrite Hr, Hs. cbn [fst snd]. destruct text as [|c l].
      * simp read_loop. now rewrite app_nil_r.
      * simp read_loop. cbn [readline fst snd].
        simp read_loop. unfold kept; simpl.
        destruct (skipped (strip (c :: l))); simpl;
          [now rewrite app_nil_r | reflexivity].
Qed.

(** The lines kept by the reading loop are the stripped lines of the text
    that are neither blank nor comments, in file order. *)
Lemma requirement_lines_kept (text : str) :
  requirement_lines text = kept (split nl None text).
Proof.
  unfold requirement_lines.
  now rewrite (read_loop_split (List.length text)).
Qed.

Lemma split1_before (sep : N) (s : str) :
  item0 (split sep (Some 1) s) = before (N.eqb sep) s.
Proof.
  induction s as [|c s IH]; [reflexivity|].
  simpl. rewrite (N.eqb_sym sep c).
  destruct (N.eqb c sep); simpl; [reflexivity|].
  destruct (split sep (Some 1) s); simpl in *; now rewrite <- IH.
Qed.

Lemma before_before (p q : N -> bool) (s : str) :
  before q (before p s) = before (fun c => p c || q c) s.
Proof.
  induction s as [|c s IH]; [reflexivity|].
  simpl. destruct (p c); simpl; [reflexivity|].
  destruct (q c); [reflexivity | now rewrite IH].
Qed.

Lemma package_of_before (line : str) :
  package_of line = before is_eq_or_gt line.
Proof.
  unfold package_of. now rewrite !split1_before, before_before.
Qed.

Lemma before_prefix (p : N -> bool) (s : str) :
  exists rest,
    s = before p s ++ rest
    /\ (forall c, In c (before p s) -> p c = false)
    /\ (rest = [] \/ exists c rest', rest = c :: rest' /\ p c = true).
Proof.
  induction s as [|c s (rest & Hs & Hb & Hr)].
  - exists []. repeat split; [intros c [] | now left].
  - simpl. destruct (p c) eqn:Hc.
    + exists (c :: s). repeat split; [intros x [] | right; eauto].
    + exists rest. simpl. repeat split.
      * now f_equal.
      * intros x [<-|Hx]; auto.
      * exact Hr.
Qed.

End Requirements.

(** ** Sequencing *)

Section Bind.

Context {S A B : Type}.

Lemma bind_returns (m : M S A) (k : A -> M S B) st a st' :
  m st = (Ret a, st') -> bind m k st = k a st'.
Proof. intro H. unfold bind. now rewrite H. Qed.

Lemma bind_exits (m : M S A) (k : A -> M S B) st c st' :
  m st = (Exit c, st') -> bind m k st = (Exit c, st').
Proof. intro H. unfold bind. now rewrite H. Qed.

Lemma bind_raises (m : M S A) (k : A -> M S B) st e st' :
  m st = (Raise e, st') -> bind m k st = (Raise e, st').
Proof. intro H. unfold bind. now rewrite H. Qed.

End Bind.

(** ** The dependency check, [check_pip3] *)

Module PipCheck.

Import Install Obs RunScript.

Section Facts.

Variable w : world.

Lemma emit_emit st a b c d :
  emit (emit st a b) c d = emit st (a ++ c) (b ++ d).
Proof. unfold emit; simpl. now rewrite !app_assoc. Qed.

Lemma emit_nil st : emit st [] [] = st.
Proof. destruct st. unfold emit; simpl. now rewrite !app_nil_r. Qed.

Lemma print_emit s st : print s st = (Ret tt, emit st [s] []).
Proof. unfold print, emit; simpl. now rewrite app_nil_r. Qed.

Lemma log_emit {A} message st :
  @_log A message st = (Exit 3, emit st [fatal message] []).
Proof.
  unfold _log. rewrite (bind_returns _ _ _ _ _ (print_emit _ st)). reflexivity.
Qed.

(** One turn of the loop, given what the runner hands back. *)
Lemma check_lines_step line rest st o st2 :
  _run_script w (command_of line) false (emit st [checking line] [])
  = (o, st2) ->
  check_lines w (line :: rest) st
  = match o with
    | Ret (returncode, _, _) =>
        if nonzero returncode
        then (Exit 3, emit st2 [fatal (not_installed (package_of line))] [])
        else check_lines w rest (emit st2 [ok_line line] [])
    | Exit c => (Exit c, st2)
    | Raise e => (Raise e, st2)
    end.
Proof.
  intro H. cbn [check_lines].
  rewrite (bind_returns _ _ _ _ _ (print_emit _ st)).
  unfold command_of, checking in H. unfold bind at 1. rewrite H.
  destruct o as [[[returncode out] err]|c|e]; try reflexivity.
  destruct (nonzero returncode).
  - now rewrite (bind_exits _ _ _ _ _ (log_emit _ st2)).
  - unfold bind at 1, ret at 1.
    now rewrite (bind_returns _ _ _ _ _ (print_emit _ st2)).
Qed.

(** Lines whose commands exit with 0 are passed over, each leaving its
    three lines of output and its one process. *)
Lemma check_lines_installed pre :
  forall rest st,
  installed w (spawned st) pre = true ->
  check_lines w (pre ++ rest) st
  = check_lines w rest (emit st (flat_map passed pre) (map argv_of pre)).
Proof.
  induction pre as [|line pre IH]; intros rest st Hpre.
  - simpl. now rewrite emit_nil.
  - simpl in Hpre.
    destruct (Popen w (spawned st) (argv_of line))
      as [rc out err|] eqn:HP; [|discriminate].
    apply andb_prop in Hpre as [Hrc Hpre]. apply Z.eqb_eq in Hrc. subst rc.
    change ((line :: pre) ++ rest) with (line :: pre ++ rest).
    assert (Hrun := run_zero w (command_of line) false
                      (emit st [checking line] []) out err).
    cbn [emit spawned] in Hrun. rewrite app_nil_r in Hrun.
    specialize (Hrun HP).
    rewrite (check_lines_step _ (pre ++ rest) _ _ _ Hrun).
    cbn [nonzero Z.eqb negb].
    rewrite IH.
    + rewrite !emit_emit. simpl. reflexivity.
    + rewrite !emit_emit. cbn [emit spawned]. simpl. exact Hpre.
Qed.

(** The processes spawned by the loop are the commands of an initial
    segment of the lines, one per line and in order; of all the lines
    when the loop returns. *)
Lemma check_lines_spawned lines :
  forall st, exists k,
    spawned (snd (check_lines w lines st))
    = spawned st ++ map argv_of (firstn k lines)
    /\ (returned (fst (check_lines w lines st)) = true
        -> k = List.length lines).
Proof.
  induction lines as [|line rest IH]; intro st.
  - exists 0. simpl. rewrite app_nil_r. auto.
  - destruct (_run_script w (command_of line) false
                (emit st [checking line] [])) as [o st2] eqn:Hrun.
    assert (Hsp := run_spawns_one w (command_of line) false
                     (emit st [checking line] [])).
    rewrite Hrun in Hsp. cbn [snd emit spawned] in Hsp.
    rewrite app_nil_r in Hsp. fold (argv_of line) in Hsp.
    rewrite (check_lines_step _ rest _ _ _ Hrun).
    destruct o as [[[returncode out] err]|c|e].
    + destruct (nonzero returncode).
      * exists 1. cbn [snd fst emit spawned returned firstn map].
        rewrite app_nil_r. split; [exact Hsp | discriminate].
      * destruct (IH (emit st2 [ok_line line] [])) as (k & Hk & Hall).
        exists (S k). rewrite Hk. cbn [emit spawned firstn map].
        rewrite app_nil_r, Hsp, <- app_assoc. split; [reflexivity|].
        intro Hr. simpl. now rewrite (Hall Hr).
    + exists 1. cbn [snd fst returned firstn map].
      split; [exact Hsp | discriminate].
    + exists 1. cbn [snd fst returned firstn map].
      split; [exact Hsp | discriminate].
Qed.

End Facts.

(** With the file present, the check is the loop over its kept lines. *)
Lemma check_pip3_reads (w : world) (st : state) (text : str) :
  regular_file w (requirements_path w) = Some text ->
  check_pip3 w st = check_lines w (requirement_lines text) st.
Proof.
  unfold regular_file, check_pip3, open_r.
  destruct (isfile w (requirements_path w)); [|discriminate].
  destruct (open_read w (requirements_path w)) as [t|e]; [|discriminate].
  intro H. injection H as ->. reflexivity.
Qed.

(** Without the file the check is fatal at once. *)
Lemma check_pip3_no_file (w : world) (st : state) :
  isfile w (requirements_path w) = false ->
  check_pip3 w st
  = (Exit 3,
     emit st [fatal (lit "Cannot find PIP3 requirements file "
                     ++ requirements_path w)] []).
Proof.
  intro H. unfold check_pip3. rewrite H.
  now rewrite (bind_exits _ _ _ _ _ (log_emit _ st)).
Qed.

(** A file that is there but cannot be read through makes the check raise
    what the read raised, with nothing printed or spawned. *)
Lemma check_pip3_unreadable (w : world) (st : state) (e : exn) :
  isfile w (requirements_path w) = true ->
  open_read w (requirements_path w) = ReadError e ->
  check_pip3 w st = (Raise e, st).
Proof.
  intros H He. unfold check_pip3, open_r. rewrite H, He. reflexivity.
Qed.

End PipCheck.

(** ** Splitting, stripping and package names *)

Module TextFacts.

Import Install Obs Shape Requirements.

Lemma split_nonempty (sep : N) (k : option nat) (s : str) :
  split sep k s <> [].
Proof.
  destruct s as [|c s]; simpl; [discriminate|].
  destruct (N.eqb c sep && may_split k); [discriminate|].
  destruct (split sep k s); discriminate.
Qed.

Lemma join_cons (sep : N) (x : str) (l : list str) :
  l <> [] -> join sep (x :: l) = x ++ sep :: join sep l.
Proof. destruct l; [contradiction | reflexivity]. Qed.

Lemma join_split (sep : N) (s : str) : join sep (split sep None s) = s.
Proof.
  induction s as [|c s IH]; [reflexivity|].
  simpl split. rewrite andb_true_r.
  pose proof (split_nonempty sep None s) as Hne.
  destruct (N.eqb_spec c sep) as [->|Hc].
  - rewrite (join_cons _ _ _ Hne), IH. reflexivity.
  - destruct (split sep None s) as [|h t]; [contradiction|].
    destruct t as [|h' t].
    + simpl in *. now rewrite IH.
    + rewrite join_cons by discriminate.
      rewrite join_cons in IH by discriminate.
      rewrite <- IH. reflexivity.
Qed.

Lemma split_tokens (sep : N) (s : str) :
  forall t, In t (split sep None s) -> ~ In sep t.
Proof.
  induction s as [|c s IH]; simpl.
  - intros t [<-|[]] [].
  - rewrite andb_true_r. destruct (N.eqb_spec c sep) as [->|Hc].
    + intros t [<-|Ht]; [intros []|auto].
    + pose proof (split_nonempty sep None s) as Hne.
      destruct (split sep None s) as [|h r]; [contradiction|].
      intros t [<-|Ht].
      * intros [Heq|Hin]; [congruence|]. apply (IH h); simpl; auto.
      * apply IH. now right.
Qed.

Lemma split_whole (sep : N) (s : str) :
  ~ In sep s -> split sep None s = [s].
Proof.
  induction s as [|c s IH]; intro H; [reflexivity|].
  simpl. rewrite andb_true_r.
  destruct (N.eqb_spec c sep) as [->|Hc]; [elim H; now left|].
  rewrite IH; [reflexivity|]. intro Hin. apply H. now right.
Qed.

Lemma split_first (sep : N) (a b : str) :
  ~ In sep a ->
  split sep None (a ++ sep :: b) = a :: split sep None b.
Proof.
  induction a as [|c a IH]; intro H.
  - simpl. now rewrite N.eqb_refl.
  - simpl. rewrite andb_true_r.
    destruct (N.eqb_spec c sep) as [->|Hc]; [elim H; now left|].
    rewrite IH; [reflexivity|]. intro Hin. apply H. now right.
Qed.

Lemma lstrip_incl (s : str) : forall c, In c (lstrip s) -> In c s.
Proof.
  induction s as [|x s IH]; simpl; [auto|].
  destruct (isspace x); intros c Hc; [right; auto | exact Hc].
Qed.

Lemma strip_incl (s : str) : forall c, In c (strip s) -> In c s.
Proof.
  intros c Hc. unfold strip, rstrip in Hc.
  apply in_rev in Hc. apply lstrip_incl in Hc. apply in_rev in Hc.
  now apply lstrip_incl.
Qed.

Lemma lstrip_head (s : str) :
  lstrip s = [] \/ isspace (hd 0%N (lstrip s)) = false.
Proof.
  induction s as [|x s IH]; simpl; [now left|].
  destruct (isspace x) eqn:Hx; [exact IH | right; exact Hx].
Qed.

Lemma lstrip_fixed (s : str) :
  s = [] \/ isspace (hd 0%N s) = false -> lstrip s = s.
Proof.
  destruct s as [|x s]; [reflexivity|].
  intros [H|H]; [discriminate|]. simpl in *. now rewrite H.
Qed.

Lemma lstrip_idem (s : str) : lstrip (lstrip s) = lstrip s.
Proof. apply lstrip_fixed, lstrip_head. Qed.

Lemma lstrip_snoc (a : str) (c : N) :
  isspace c = false -> lstrip (a ++ [c]) = lstrip a ++ [c].
Proof.
  intro Hc. induction a as [|x a IH]; simpl.
  - now rewrite Hc.
  - destruct (isspace x); [exact IH | reflexivity].
Qed.

Lemma rstrip_cons (c : N) (t : str) :
  isspace c = false -> rstrip (c :: t) = c :: rstrip t.
Proof.
  intro Hc. unfold rstrip. simpl rev.
  rewrite (lstrip_snoc _ _ Hc), rev_app_distr. reflexivity.
Qed.

Lemma rstrip_idem (s : str) : rstrip (rstrip s) = rstrip s.
Proof. unfold rstrip. now rewrite rev_involutive, lstrip_idem. Qed.

Lemma strip_idem (s : str) : strip (strip s) = strip s.
Proof.
  unfold strip.
  assert (H : lstrip (rstrip (lstrip s)) = rstrip (lstrip s)).
  { destruct (lstrip_head s) as [H|H].
    - rewrite H. reflexivity.
    - destruct (lstrip s) as [|c t]; [reflexivity|]. simpl in H.
      rewrite (rstrip_cons _ _ H). simpl. now rewrite H. }
  rewrite H. apply rstrip_idem.
Qed.

Lemma strip_ends (s : str) :
  strip s = []
  \/ (isspace (hd 0%N (strip s)) = false
      /\ isspace (last (strip s) 0%N) = false).
Proof.
  unfold strip. destruct (lstrip_head s) as [H|H].
  - left. rewrite H. reflexivity.
  - destruct (lstrip s) as [|c t] eqn:Hs; [now left|]. simpl in H.
    right. split.
    + rewrite (rstrip_cons _ _ H). exact H.
    + unfold rstrip.
      assert (Hne : lstrip (rev (c :: t)) <> []).
      { simpl rev. rewrite (lstrip_snoc _ _ H). intro E.
        now apply app_eq_nil in E as [_ E]. }
      destruct (lstrip_head (rev (c :: t))) as [H'|H']; [contradiction|].
      destruct (lstrip (rev (c :: t))) as [|y r]; [contradiction|].
      simpl in H'. simpl rev. now rewrite last_last.
Qed.

Lemma kept_origin (lines : list str) (l : str) :
  In l (kept lines) ->
  exists raw, In raw lines /\ l = strip raw /\ skipped l = false.
Proof.
  unfold kept. intro H. apply filter_In in H as [Hin Hk].
  apply in_map_iff in Hin as (raw & <- & Hraw).
  exists raw. repeat split; [exact Hraw|].
  now apply negb_true_iff in Hk.
Qed.

Lemma before_none (p : N -> bool) (s : str) :
  (forall c, In c s -> p c = false) -> before p s = s.
Proof.
  induction s as [|x s IH]; intro H; [reflexivity|].
  simpl. rewrite (H x (or_introl eq_refl)). f_equal.
  apply IH. intros c Hc. apply H. now right.
Qed.

Lemma before_stop (p : N -> bool) (a : str) (x : N) (r : str) :
  (forall c, In c a -> p c = false) -> p x = true ->
  before p (a ++ x :: r) = a.
Proof.
  induction a as [|y a IH]; intros Ha Hx; simpl.
  - now rewrite Hx.
  - rewrite (Ha y (or_introl eq_refl)). f_equal.
    apply IH; [|exact Hx]. intros c Hc. apply Ha. now right.
Qed.

Lemma plain_name (name : str) :
  ~ In 61%N name -> ~ In 62%N name ->
  forall c, In c name -> is_eq_or_gt c = false.
Proof.
  intros H1 H2 c Hc. unfold is_eq_or_gt. apply orb_false_intro.
  - apply N.eqb_neq. intros <-. contradiction.
  - apply N.eqb_neq. intros <-. contradiction.
Qed.

End TextFacts.

(** ** More about the command runner *)

Module RunFacts.

Import Install Obs Shape RunScript.

Lemma utf8_ascii (bs : list N) :
  forallb (fun b => (b <? 128)%N) bs = true -> utf8 bs = Some bs.
Proof.
  induction bs as [|b bs IH]; intro H; [reflexivity|].
  simpl in H. apply andb_prop in H as [Hb Hbs].
  cbn [utf8]. rewrite Hb, (IH Hbs). reflexivity.
Qed.

Lemma decode_ascii (b : bytes) :
  ascii_only b = true -> decode b = Some (text_of b).
Proof.
  intro H. unfold decode, text_of. apply utf8_ascii.
  unfold ascii_only in H. induction b as [|x b IH]; [reflexivity|].
  simpl in *. apply andb_prop in H as [Hx Hb].
  now rewrite Hx, (IH Hb).
Qed.

(** The four ways a call can go, by what [Popen] answers. *)
Lemma run_cases (w : world) (cli : str) (die : bool) (st : state) :
  (exists out err,
     Popen w (spawned st) (argv_of_command cli) = Completed 0 out err
     /\ _run_script w cli die st
        = (Ret (0%Z, out, err), emit st [running cli] [argv_of_command cli]))
  \/ (exists rc out err so se,
        Popen w (spawned st) (argv_of_command cli) = Completed rc out err
        /\ rc <> 0%Z /\ decode out = Some so /\ decode err = Some se
        /\ _run_script w cli die st
           = ((if die then Exit 2 else Ret (rc, out, err)),
              emit st ([running cli; lit "Return code:" ++ str_of_int rc]
                       ++ stdout_lines so ++ stderr_lines se)
                   [argv_of_command cli]))
  \/ (exists rc out err,
        Popen w (spawned st) (argv_of_command cli) = Completed rc out err
        /\ rc <> 0%Z /\ (decode out = None \/ decode err = None)
        /\ _run_script w cli die st
           = (Raise UnicodeDecodeError,
              emit st [running cli] [argv_of_command cli]))
  \/ (exists ty val tb fe,
        Popen w (spawned st) (argv_of_command cli) = Failed ty val tb fe
        /\ _run_script w cli die st
           = ((if die then Exit 2 else Ret (1%Z, [], [])),
              emit st [running cli; bug_message ty val tb; fe;
                       lit "Return code:1"; lit "STDOUT: "; lit "STDERR: "]
                   [argv_of_command cli])).
Proof.
  destruct (Popen w (spawned st) (argv_of_command cli))
    as [rc out err|ty val tb fe] eqn:H.
  - destruct (Z.eq_dec rc 0) as [->|Hrc].
    + left. exists out, err. split; [reflexivity|].
      exact (run_zero w cli die st out err H).
    + destruct (decode out) as [so|] eqn:Ho.
      * destruct (decode err) as [se|] eqn:He.
        -- right; left. exists rc, out, err, so, se.
           repeat split; auto.
           exact (run_nonzero w cli die st rc out err so se H Hrc Ho He).
        -- right; right; left. exists rc, out, err.
           repeat split; auto.
           apply (run_undecodable w cli die st rc out err H Hrc); auto.
      * right; right; left. exists rc, out, err.
        repeat split; auto.
        apply (run_undecodable w cli die st rc out err H Hrc); auto.
  - right; right; right. exists ty, val, tb, fe. split; [reflexivity|].
    exact (run_failed w cli die st ty val tb fe H).
Qed.

(** How a call can end. *)
Lemma run_kinds (w : world) (cli : str) (die : bool) (st : state) :
  (exists rc out err,
     fst (_run_script w cli die st) = Ret (rc, out, err)
     /\ (die = true -> rc = 0%Z))
  \/ (die = true /\ fst (_run_script w cli die st) = Exit 2)
  \/ fst (_run_script w cli die st) = Raise UnicodeDecodeError.
Proof.
  destruct (run_cases w cli die st)
    as [(out & err & _ & E)
       |[(rc & out & err & so & se & _ & _ & _ & _ & E)
        |[(rc & out & err & _ & _ & _ & E)
         |(ty & val & tb & fe & _ & E)]]]; rewrite E; cbn [fst].
  - left. now exists 0%Z, out, err.
  - destruct die; [right; left; auto|].
    left. exists rc, out, err. split; [reflexivity | discriminate].
  - now right; right.
  - destruct die; [right; left; auto|].
    left. exists 1%Z, [], []. split; [reflexivity | discriminate].
Qed.

(** The progress line comes first, whatever follows. *)
Lemma run_prints_first (w : world) (cli : str) (die : bool) (st : state) :
  exists diag,
    printed (snd (_run_script w cli die st))
    = printed st ++ running cli :: diag.
Proof.
  destruct (run_cases w cli die st)
    as [(out & err & _ & E)
       |[(rc & out & err & so & se & _ & _ & _ & _ & E)
        |[(rc & out & err & _ & _ & _ & E)
         |(ty & val & tb & fe & _ & E)]]]; rewrite E;
    cbn [snd emit printed app]; eexists; reflexivity.
Qed.

End RunFacts.

(** ** More about the dependency check *)

Module PipFacts.

Import Install Obs Shape RunScript RunFacts PipCheck.

Lemma check_lines_kinds (w : world) (lines : list str) :
  forall st,
    fst (check_lines w lines st) = Ret tt
    \/ fst (check_lines w lines st) = Exit 3
    \/ fst (check_lines w lines st) = Raise UnicodeDecodeError.
Proof.
  induction lines as [|line rest IH]; intro st; [now left|].
  destruct (_run_script w (command_of line) false
              (emit st [checking line] [])) as [o st2] eqn:Hrun.
  rewrite (check_lines_step w line rest st o st2 Hrun).
  destruct (run_kinds w (command_of line) false
              (emit st [checking line] []))
    as [(rc & out & err & E & _)|[[Hd _]|E]];
    [|discriminate|]; rewrite Hrun in E; cbn [fst] in E; subst o.
  - destruct (nonzero rc); [now right; left | apply IH].
  - now right; right.
Qed.

(** The loop returns exactly when every command exits with code 0. *)
Lemma check_lines_returns (w : world) (lines : list str) :
  forall st,
    returned (fst (check_lines w lines st)) = true
    <-> installed w (spawned st) lines = true.
Proof.
  induction lines as [|line rest IH]; intro st; [simpl; tauto|].
  split.
  - intro Hret.
    destruct (run_cases w (command_of line) false
                (emit st [checking line] []))
      as [(out & err & HP & E)
         |[(rc & out & err & so & se & _ & Hrc & _ & _ & E)
          |[(rc & out & err & _ & _ & _ & E)
           |(ty & val & tb & fe & _ & E)]]];
      rewrite (check_lines_step w line rest st _ _ E) in Hret.
    + cbn [nonzero Z.eqb negb] in Hret. apply IH in Hret.
      cbn [emit spawned] in HP, Hret. rewrite !app_nil_r in *.
      cbn [installed]. fold (argv_of line) in HP. rewrite HP.
      cbn [Z.eqb andb]. exact Hret.
    + rewrite (nonzero_true rc Hrc) in Hret. discriminate.
    + discriminate.
    + cbn [nonzero Z.eqb negb] in Hret. discriminate.
  - intro Hin.
    rewrite <- (app_nil_r (line :: rest)).
    rewrite (check_lines_installed w (line :: rest) [] st Hin).
    reflexivity.
Qed.

(** How the dependency check can end. *)
Lemma check_pip3_kinds (w : world) (st : state) :
  (isfile w (requirements_path w) = false
   /\ check_pip3 w st
      = (Exit 3,
         emit st [fatal (lit "Cannot find PIP3 requirements file "
                         ++ requirements_path w)] []))
  \/ (isfile w (requirements_path w) = true
      /\ exists e,
           open_read w (requirements_path w) = ReadError e
           /\ check_pip3 w st = (Raise e, st))
  \/ (exists text,
        regular_file w (requirements_path w) = Some text
        /\ (fst (check_pip3 w st) = Ret tt
            \/ fst (check_pip3 w st) = Exit 3
            \/ fst (check_pip3 w st) = Raise UnicodeDecodeError)).
Proof.
  destruct (isfile w (requirements_path w)) eqn:Hf.
  - destruct (open_read w (requirements_path w)) as [text|e] eqn:Ho.
    + right; right. exists text.
      assert (Hr : regular_file w (requirements_path w) = Some text)
        by (unfold regular_file; now rewrite Hf, Ho).
      split; [exact Hr|].
      rewrite (check_pip3_reads w st text Hr). apply check_lines_kinds.
    + right; left. split; [reflexivity|]. exists e.
      split; [reflexivity|]. now apply check_pip3_unreadable.
  - left. split; [reflexivity|]. now apply check_pip3_no_file.
Qed.

(** The processes spawned by the loop are the commands of the lines up to
    and including the first whose command does not complete with exit code
    0, and of no line after it. *)
Lemma check_lines_checked (w : world) (lines : list str) :
  forall st,
    spawned (snd (check_lines w lines st))
    = spawned st
      ++ map argv_of (firstn (S (passing w (spawned st) lines)) lines).
Proof.
  induction lines as [|line rest IH]; intro st.
  - simpl. now rewrite app_nil_r.
  - destruct (run_cases w (command_of line) false
                (emit st [checking line] []))
      as [(out & err & HP & E)
         |[(rc & out & err & so & se & HP & Hrc & _ & _ & E)
          |[(rc & out & err & HP & Hrc & _ & E)
           |(ty & val & tb & fe & HP & E)]]];
      rewrite (check_lines_step w line rest st _ _ E);
      cbn [emit spawned] in HP; rewrite app_nil_r in HP;
      fold (argv_of line) in HP; cbn [passing]; rewrite HP.
    + cbn [nonzero Z.eqb negb]. rewrite IH.
      cbn [emit spawned firstn map]. rewrite !app_nil_r, <- app_assoc.
      reflexivity.
    + rewrite (nonzero_true rc Hrc).
      destruct (Z.eqb_spec rc 0) as [->|_]; [contradiction|].
      cbn [snd emit spawned firstn map]. now rewrite !app_nil_r.
    + destruct (Z.eqb_spec rc 0) as [->|_]; [contradiction|].
      cbn [snd emit spawned firstn map]. now rewrite !app_nil_r.
    + cbn [nonzero Z.eqb negb snd emit spawned firstn map].
      now rewrite !app_nil_r.
Qed.

(** When the loop returns, every line has been checked. *)
Lemma passing_all (w : world) (lines : list str) :
  forall hist,
    installed w hist lines = true ->
    firstn (S (passing w hist lines)) lines = lines.
Proof.
  induction lines as [|line rest IH]; intros hist H; [reflexivity|].
  cbn [installed passing] in *.
  destruct (Popen w hist (argv_of line)) as [rc out err|]; [|discriminate].
  apply andb_prop in H as [Hrc H]. rewrite Hrc.
  cbn [firstn]. f_equal. now apply IH.
Qed.

(** What the loop prints comes after what was printed before, and holds,
    for every line it checks, the announcement with the line's package and
    the runner's progress line with the command built from it. *)
Lemma check_lines_printed (w : world) (lines : list str) :
  forall st, exists more,
    printed (snd (check_lines w lines st)) = printed st ++ more
    /\ forall line,
         In line (firstn (S (passing w (spawned st) lines)) lines) ->
         In (checking line) more /\ In (running (command_of line)) more.
Proof.
  induction lines as [|line0 rest IH]; intro st.
  - exists []. simpl. rewrite app_nil_r. split; [reflexivity | intros ? []].
  - destruct (run_cases w (command_of line0) false
                (emit st [checking line0] []))
      as [(out & err & HP & E)
         |[(rc & out & err & so & se & HP & Hrc & _ & _ & E)
          |[(rc & out & err & HP & Hrc & _ & E)
           |(ty & val & tb & fe & HP & E)]]];
      rewrite (check_lines_step w line0 rest st _ _ E);
      cbn [emit spawned] in HP; rewrite app_nil_r in HP;
      fold (argv_of line0) in HP; cbn [passing]; rewrite HP.
    + cbn [nonzero Z.eqb negb].
      destruct (IH (emit (emit (emit st [checking line0] [])
                            [running (command_of line0)]
                            [argv_of_command (command_of line0)])
                      [ok_line line0] [])) as (more & Hm & Hin).
      exists ([checking line0; running (command_of line0); ok_line line0]
              ++ more).
      rewrite Hm. cbn [emit printed spawned] in *.
      rewrite !app_nil_r in Hin. split.
      * rewrite <- !app_assoc. reflexivity.
      * intros line [<-|Hl].
        -- split; apply in_or_app; left; simpl; auto.
        -- destruct (Hin line Hl) as [H1 H2].
           split; apply in_or_app; right; assumption.
    + rewrite (nonzero_true rc Hrc).
      destruct (Z.eqb_spec rc 0) as [->|_]; [contradiction|].
      eexists. cbn [snd emit printed]. rewrite <- !app_assoc. split.
      * reflexivity.
      * intros line [<-|[]]. simpl. auto.
    + destruct (Z.eqb_spec rc 0) as [->|_]; [contradiction|].
      eexists. cbn [snd emit printed]. rewrite <- !app_assoc. split.
      * reflexivity.
      * intros line [<-|[]]. simpl. auto.
    + cbn [nonzero Z.eqb negb].
      eexists. cbn [snd emit printed]. rewrite <- !app_assoc. split.
      * reflexivity.
      * intros line [<-|[]]. simpl. auto.
Qed.

End PipFacts.

(** ** More about the configuration check *)

Module ConfigFacts.

Import Install Obs Shape RunScript RunFacts PipCheck TextFacts.

(** With the variable set and the directory present, the check is the
    schema check followed by the confirmation. *)
Lemma check_config_runs (w : world) (st : state) (dir : str) :
  environ w PATTOO_CONFIGDIR = Some dir -> isdir w dir = true ->
  check_config w st
  = match _run_script w (check_config_path w) true (emit st [announce] [])
    with
    | (Ret _, st2) =>
        (Ret tt, emit st2 [lit "OK: Configuration check passed"] [])
    | (Exit c, st2) => (Exit c, st2)
    | (Raise e, st2) => (Raise e, st2)
    end.
Proof.
  intros H Hd. unfold check_config, environ_get.
  rewrite (bind_returns _ _ _ _ _ (print_emit _ st)). rewrite H.
  unfold bind at 1, ret at 1. unfold bind at 1, ret at 1.
  rewrite Hd. unfold bind at 1, ret at 1. unfold bind at 1.
  unfold announce.
  destruct (_run_script w (check_config_path w) true
              (emit st [lit "??: Checking configuration"] []))
    as [[r|c|e] st2]; try reflexivity.
  apply print_emit.
Qed.

Lemma check_config_stops (w : world) (st : state) :
  environ w PATTOO_CONFIGDIR = None
  \/ (exists dir, environ w PATTOO_CONFIGDIR = Some dir
                  /\ isdir w dir = false) ->
  exists message,
    check_config w st = (Exit 3, emit st [announce; fatal message] []).
Proof.
  intros [H|(dir & H & Hd)]; unfold check_config, environ_get;
    rewrite (bind_returns _ _ _ _ _ (print_emit _ st)); rewrite H.
  - exists env_unset_message.
    rewrite (bind_exits _ _ _ _ _ (log_emit _ _)). now rewrite emit_emit.
  - exists dir_missing_message.
    unfold bind at 1, ret at 1. unfold bind at 1, ret at 1. rewrite Hd.
    rewrite (bind_exits _ _ _ _ _ (log_emit _ _)). now rewrite emit_emit.
Qed.

Lemma split_more (sep : N) (s : str) :
  In sep s -> exists h t, split sep None s = h :: t /\ t <> [].
Proof.
  induction s as [|c s IH]; intro H; [destruct H|].
  simpl. rewrite andb_true_r. destruct (N.eqb_spec c sep) as [->|Hc].
  - exists [], (split sep None s). split; [reflexivity|].
    apply split_nonempty.
  - destruct H as [H|H]; [congruence|].
    destruct (IH H) as (h & t & E & Ht). rewrite E. eauto.
Qed.

Lemma path_space (w : world) :
  In 32%N (check_config_path w) <-> In 32%N (ROOT_DIR w).
Proof.
  unfold check_config_path. rewrite !in_app_iff. split; [|tauto].
  intros [H|[H|H]]; [exact H | |]; exfalso; vm_compute in H;
    intuition discriminate.
Qed.

Lemma check_config_cases (w : world) (st : state) :
  (fst (check_config w st) = Exit 3
   /\ spawned (snd (check_config w st)) = spawned st
   /\ (environ w PATTOO_CONFIGDIR = None
       \/ exists dir, environ w PATTOO_CONFIGDIR = Some dir
                      /\ isdir w dir = false))
  \/ (exists dir,
        environ w PATTOO_CONFIGDIR = Some dir /\ isdir w dir = true
        /\ spawned (snd (check_config w st))
           = spawned st ++ [split 32 None (check_config_path w)]
        /\ (fst (check_config w st) = Ret tt
            \/ fst (check_config w st) = Exit 2
            \/ fst (check_config w st) = Raise UnicodeDecodeError)).
Proof.
  destruct (environ w PATTOO_CONFIGDIR) as [dir|] eqn:He.
  - destruct (isdir w dir) eqn:Hd.
    + right. exists dir.
      split; [reflexivity|]. split; [exact Hd|]. split.
      * rewrite (check_config_runs w st dir He Hd).
        pose proof (run_spawns_one w (check_config_path w) true
                      (emit st [announce] [])) as Hs.
        destruct (_run_script w (check_config_path w) true
                    (emit st [announce] [])) as [[r|c|e] st2];
          cbn [snd emit spawned] in *; rewrite ?app_nil_r in *; exact Hs.
      * rewrite (check_config_runs w st dir He Hd).
        destruct (run_kinds w (check_config_path w) true
                    (emit st [announce] []))
          as [(rc & out & err & E & _)|[[_ E]|E]];
          destruct (_run_script w (check_config_path w) true
                      (emit st [announce] [])) as [o st2];
          cbn [fst] in E; subst o; cbn [fst]; auto.
    + left.
      destruct (check_config_stops w st) as (m & E);
        [right; exists dir; rewrite <- He; auto|].
      rewrite E. cbn [fst snd emit spawned]. rewrite app_nil_r.
      repeat split. right. now exists dir.
  - left. destruct (check_config_stops w st) as (m & E);
      [now left|].
    rewrite E. cbn [fst snd emit spawned]. rewrite app_nil_r.
    repeat split. now left.
Qed.

End ConfigFacts.

(** * The claims *)

(** ** Claims about the command runner *)

Module RunnerClaims.

Import Install Obs RunScript Hosts.

(** C1. With [die=True] and a non-zero exit code the runner is meant to
    print the command, the return code and every line of the captured
    output, then leave with exit code 2. It does so when both streams
    decode (lemma [RunScript.run_nonzero]); on a host whose command exits
    with 1 after writing the byte 0xFF, [stdoutdata.decode()] raises
    instead: nothing but the progress line has been printed and the process
    ends with an unhandled [UnicodeDecodeError], not with exit code 2. *)
Theorem run_script_die_on_undecodable_output :
  _run_script garbled (lit "setup/_check_config.py") true start
  = (Raise UnicodeDecodeError,
     {| printed := [running (lit "setup/_check_config.py")];
        spawned := [[lit "setup/_check_config.py"]] |}).
Proof. vm_compute. reflexivity. Qed.

(** C5. With [die=False] the runner is meant to hand back the exit code
    with the captured bytes. For exit code 0 it does; for a non-zero code
    it does when both streams decode (lemmas [RunScript.run_zero] and
    [RunScript.run_nonzero]); on the host of C1 the call does not return:
    the [UnicodeDecodeError] raised while the output is split into lines
    propagates to the caller. *)
Theorem run_script_no_die_on_undecodable_output :
  _run_script garbled (lit "pip3 show PyYAML") false start
  = (Raise UnicodeDecodeError,
     {| printed := [running (lit "pip3 show PyYAML")];
        spawned := [[lit "pip3"; lit "show"; lit "PyYAML"]] |}).
Proof. vm_compute. reflexivity. Qed.

(** C3, as stated, fails: when the launch fails and [die=False], the
    triple handed back has an empty [stderrdata]; the error message is
    printed, not stored. *)
Lemma launch_failure_stderr_not_populated :
  ~ (exists rc out err st',
       _run_script no_launch (lit "pip3 show PyYAML") false start
       = (Ret (rc, out, err), st')
       /\ rc <> 0%Z /\ err <> []).
Proof.
  intros (rc & out & err & st' & H & _ & Herr).
  vm_compute in H. injection H as _ _ He _. apply Herr. now rewrite <- He.
Qed.

(** C3, amended. When the launch fails the exception is caught: the runner
    goes on with the sentinel return code 1 and empty output, prints the
    exception, its traceback, the return code and the two empty streams,
    and then exits with code 2 when [die] is true, or hands back
    [(1, b'', b'')] when it is false. *)
Theorem launch_failure_is_reported (w : world) (cli_string : str)
    (die : bool) (st : state) (ty val tb fe : str) :
  Popen w (spawned st) (split 32 None cli_string) = Failed ty val tb fe ->
  _run_script w cli_string die st
  = ((if die then Exit 2 else Ret (1%Z, [], [])),
     {| printed :=
          printed st
          ++ [lit "Running Command: " ++ quote ++ cli_string ++ quote;
              bug_message ty val tb; fe;
              lit "Return code:1"; lit "STDOUT: "; lit "STDERR: "];
        spawned := spawned st ++ [split 32 None cli_string] |}).
Proof. intro H. exact (run_failed w cli_string die st ty val tb fe H). Qed.

Lemma launch_failure_is_reported_witness :
  _run_script no_launch (lit "pip3 show PyYAML") false start
  = (Ret (1%Z, [], []),
     {| printed :=
          [lit "Running Command: " ++ quote ++ lit "pip3 show PyYAML" ++ quote;
           bug_message (lit "<class 'FileNotFoundError'>")
             (lit "[Errno 2] No such file or directory: 'pip3'")
             (lit "<traceback object>");
           lit "Traceback (most recent call last):";
           lit "Return code:1"; lit "STDOUT: "; lit "STDERR: "];
        spawned := [[lit "pip3"; lit "show"; lit "PyYAML"]] |}).
Proof.
  apply (launch_failure_is_reported no_launch (lit "pip3 show PyYAML")
           false start).
  reflexivity.
Defined.

End RunnerClaims.

(** ** Claims about the dependency check *)

Module PipClaims.

Import Install Obs RunScript Requirements PipCheck Hosts.

(** C2. The check is meant to stop at the first missing package through
    [_log], with exit code 3. It stops there, and checks no later
    package; but when the command of that package exits with a non-zero
    code after writing bytes that are not UTF-8, the runner raises while it
    prepares its report, before [check_pip3] gets the return code: the
    process ends with an unhandled [UnicodeDecodeError], not through [_log]
    with exit code 3. (It does exit with code 3 whenever the runner hands
    the code back: [PipExtras.check_pip3_halts_at_first_missing].) *)
Theorem check_pip3_on_undecodable_report :
  check_pip3 garbled_yaml start
  = (Raise UnicodeDecodeError,
     {| printed :=
          [lit "??: Checking package requests";
           running (lit "pip3 show requests");
           lit "OK: package requests>=2.0";
           lit "??: Checking package PyYAML";
           running (lit "pip3 show PyYAML")];
        spawned :=
          [[lit "pip3"; lit "show"; lit "requests"];
           [lit "pip3"; lit "show"; lit "PyYAML"]] |}).
Proof. vm_compute. reflexivity. Qed.

End PipClaims.

(** ** Claims about the requirements file *)

Module ParseClaims.

Import Install Obs RunScript Requirements PipCheck RunFacts PipFacts Hosts.

(** C6. The lines kept from the requirements file are its lines,
    stripped, without those that are then empty or begin with '#'. The
    package of a kept line is the part of the line before its first '=' or
    '>' (code points 61 and 62), the whole line when it has neither. The
    check takes the kept lines in order, up to and including the first
    whose command does not complete with exit code 0 (all of them when it
    returns, at least the first when there is one): for each of these it
    announces the package, hands the runner the command string
    [pip3 show <package>], which the runner prints, and spawns that string
    cut at its spaces; for no other line does it spawn anything. *)
Theorem requirement_lines_and_packages :
  (forall text,
     requirement_lines text
     = filter (fun _line =>
                 negb (startswith (lit "#") _line || negb (truthy _line)))
              (map strip (split nl None text)))
  /\ (forall line, exists rest,
        line = package_of line ++ rest
        /\ (forall c, In c (package_of line) -> c <> 61%N /\ c <> 62%N)
        /\ (rest = []
            \/ exists c rest', rest = c :: rest' /\ (c = 61%N \/ c = 62%N)))
  /\ (forall w st text,
        regular_file w (requirements_path w) = Some text ->
        let checked :=
          firstn (S (passing w (spawned st) (requirement_lines text)))
                 (requirement_lines text) in
        spawned (snd (check_pip3 w st))
        = spawned st
          ++ map (fun line =>
                    split 32 None (lit "pip3 show " ++ package_of line))
                 checked
        /\ (exists more,
              printed (snd (check_pip3 w st)) = printed st ++ more
              /\ forall line, In line checked ->
                   In (lit "??: Checking package " ++ package_of line) more
                   /\ In (lit "Running Command: " ++ quote
                          ++ (lit "pip3 show " ++ package_of line) ++ quote)
                         more)
        /\ (requirement_lines text <> [] -> checked <> [])
        /\ (returned (fst (check_pip3 w st)) = true
            -> checked = requirement_lines text)).
Proof.
  split; [|split].
  - intro text. exact (requirement_lines_kept text).
  - intro line. rewrite package_of_before.
    destruct (before_prefix is_eq_or_gt line) as (rest & Hl & Hb & Hr).
    exists rest. split; [exact Hl|]. split.
    + intros c Hc. specialize (Hb c Hc). unfold is_eq_or_gt in Hb.
      apply orb_false_elim in Hb as [H1 H2].
      apply N.eqb_neq in H1, H2. split; congruence.
    + destruct Hr as [Hr|(c & rest' & Hr & Hc)]; [now left|right].
      exists c, rest'. split; [exact Hr|].
      unfold is_eq_or_gt in Hc. apply orb_prop in Hc as [Hc|Hc];
        apply N.eqb_eq in Hc; auto.
  - intros w st text Hfile checked. subst checked.
    rewrite (check_pip3_reads w st text Hfile).
    split; [|split; [|split]].
    + exact (check_lines_checked w (requirement_lines text) st).
    + exact (check_lines_printed w (requirement_lines text) st).
    + destruct (requirement_lines text); [contradiction | discriminate].
    + intro Hr. apply check_lines_returns in Hr.
      now apply passing_all.
Qed.

Lemma requirement_lines_and_packages_witness :
  spawned (snd (check_pip3 missing_yaml start))
  = [[lit "pip3"; lit "show"; lit "requests"];
     [lit "pip3"; lit "show"; lit "PyYAML"]].
Proof.
  exact (proj1 (proj2 (proj2 requirement_lines_and_packages)
                  missing_yaml start requirements_demo eq_refl)).
Defined.

(** C10. When the requirements file exists and each of its lines is,
    once stripped, empty or a comment, the check returns with nothing
    printed and no process spawned. *)
Theorem check_pip3_nothing_to_check (w : world) (st : state) (text : str) :
  regular_file w (requirements_path w) = Some text ->
  (forall line, In line (split nl None text) ->
     strip line = [] \/ startswith (lit "#") (strip line) = true) ->
  check_pip3 w st = (Ret tt, st).
Proof.
  intros Hfile Hall. rewrite (check_pip3_reads w st text Hfile).
  rewrite requirement_lines_kept. unfold kept.
  assert (Hnone : forall lines,
             (forall line, In line lines ->
                strip line = [] \/ startswith (lit "#") (strip line) = true) ->
             filter (fun _line => negb (skipped _line)) (map strip lines)
             = []).
  { induction lines as [|l lines IH]; intro H; [reflexivity|].
    simpl. unfold skipped at 1.
    destruct (H l (or_introl eq_refl)) as [-> | ->].
    - simpl. apply IH. intros x Hx. apply H. now right.
    - simpl. apply IH. intros x Hx. apply H. now right. }
  rewrite (Hnone _ Hall). reflexivity.
Qed.

Lemma check_pip3_nothing_to_check_witness :
  check_pip3 comments_only start = (Ret tt, start).
Proof.
  apply (check_pip3_nothing_to_check comments_only start
           (lit "# nothing yet" ++ [nl] ++ lit "   " ++ [nl]
            ++ lit "  # later")).
  - reflexivity.
  - intros line Hin. vm_compute in Hin.
    destruct Hin as [<-|[<-|[<-|[]]]];
      [right; reflexivity | left; reflexivity | right; reflexivity].
Defined.

End ParseClaims.

(** ** Claims about the configuration check and the pipeline *)

Module PipelineClaims.

Import Install Obs RunScript PipCheck Hosts.

(** C4. The environment variable is looked at first: when it is unset
    the check ends with exit code 3 through [_log], whatever the file
    system holds; when it is set to a path that is not a directory the
    check ends the same way with a different message. Neither case spawns
    a process. *)
Theorem check_config_env_then_dir (w : world) (st : state) :
  (environ w PATTOO_CONFIGDIR = None ->
   check_config w st
   = (Exit 3,
      emit st [lit "??: Checking configuration"; fatal env_unset_message]
           []))
  /\ (forall dir,
        environ w PATTOO_CONFIGDIR = Some dir -> isdir w dir = false ->
        check_config w st
        = (Exit 3,
           emit st [lit "??: Checking configuration";
                    fatal dir_missing_message] []))
  /\ fatal env_unset_message <> fatal dir_missing_message.
Proof.
  split; [|split].
  - intro H. unfold check_config.
    rewrite (bind_returns _ _ _ _ _ (print_emit _ st)). rewrite H.
    rewrite (bind_exits _ _ _ _ _ (log_emit _ _)).
    now rewrite emit_emit.
  - intros dir H Hd. unfold check_config, environ_get.
    rewrite (bind_returns _ _ _ _ _ (print_emit _ st)). rewrite H.
    unfold bind at 1, ret at 1. unfold bind at 1, ret at 1.
    rewrite Hd.
    rewrite (bind_exits _ _ _ _ _ (log_emit _ _)).
    now rewrite emit_emit.
  - vm_compute. discriminate.
Qed.

Lemma check_config_env_then_dir_witness :
  check_config garbled start
  = (Exit 3,
     emit start [lit "??: Checking configuration"; fatal env_unset_message]
          [])
  /\ check_config no_config_dir start
     = (Exit 3,
        emit start [lit "??: Checking configuration";
                    fatal dir_missing_message] []).
Proof.
  split.
  - apply (proj1 (check_config_env_then_dir garbled start)). reflexivity.
  - apply (proj1 (proj2 (check_config_env_then_dir no_config_dir start))
             (lit "/etc/pattoo")); reflexivity.
Defined.

(** The configuration check passes when the variable is set, the
    directory exists and the schema check exits with code 0. *)
Lemma check_config_passes (w : world) (st : state) (dir : str)
    (out err : bytes) :
  environ w PATTOO_CONFIGDIR = Some dir -> isdir w dir = true ->
  Popen w (spawned st) (argv_of_command (check_config_path w))
  = Completed 0 out err ->
  check_config w st
  = (Ret tt,
     emit st [lit "??: Checking configuration";
              running (check_config_path w);
              lit "OK: Configuration check passed"]
          [argv_of_command (check_config_path w)]).
Proof.
  intros H Hd HP. unfold check_config, environ_get.
  rewrite (bind_returns _ _ _ _ _ (print_emit _ st)). rewrite H.
  unfold bind at 1, ret at 1. unfold bind at 1, ret at 1.
  rewrite Hd. unfold bind at 1, ret at 1.
  assert (Hrun := run_zero w (check_config_path w) true
                    (emit st [lit "??: Checking configuration"] [])
                    out err).
  cbn [emit spawned] in Hrun. rewrite app_nil_r in Hrun.
  specialize (Hrun HP).
  rewrite (bind_returns _ _ _ _ _ Hrun).
  rewrite print_emit, !emit_emit. reflexivity.
Qed.

(** C7. [main] runs the dependency check, then the configuration check,
    then prints the next steps. A stage that does not return ends the run
    there, with that stage's outcome and nothing further printed or
    spawned; the next-steps message is printed, last, exactly when both
    checks return; in particular when the dependency check has returned,
    the variable is set, the directory exists and the schema check exits
    with code 0. *)
Theorem main_runs_stages_in_order (w : world) (st : state) :
  (forall r1 st1,
     check_pip3 w st = (r1, st1) -> returned r1 = false ->
     main w st = (r1, st1))
  /\ (forall st1 r2 st2,
        check_pip3 w st = (Ret tt, st1) ->
        check_config w st1 = (r2, st2) -> returned r2 = false ->
        main w st = (r2, st2))
  /\ (forall st1 st2,
        check_pip3 w st = (Ret tt, st1) ->
        check_config w st1 = (Ret tt, st2) ->
        main w st = (Ret tt, emit st2 [next_steps_message] []))
  /\ (returned (fst (main w st)) = true <->
      exists st1 st2,
        check_pip3 w st = (Ret tt, st1)
        /\ check_config w st1 = (Ret tt, st2))
  /\ (forall st1 dir out err,
        check_pip3 w st = (Ret tt, st1) ->
        environ w PATTOO_CONFIGDIR = Some dir -> isdir w dir = true ->
        Popen w (spawned st1) (argv_of_command (check_config_path w))
        = Completed 0 out err ->
        main w st
        = (Ret tt,
           emit st1 [lit "??: Checking configuration";
                     running (check_config_path w);
                     lit "OK: Configuration check passed";
                     next_steps_message]
                [argv_of_command (check_config_path w)])).
Proof.
  assert (H3 : forall st1 st2,
             check_pip3 w st = (Ret tt, st1) ->
             check_config w st1 = (Ret tt, st2) ->
             main w st = (Ret tt, emit st2 [next_steps_message] [])).
  { intros st1 st2 H1 H2. unfold main.
    rewrite (bind_returns _ _ _ _ _ H1), (bind_returns _ _ _ _ _ H2).
    apply print_emit. }
  split; [|split; [|split; [|split]]].
  - intros r1 st1 H1 Hr. unfold main.
    destruct r1 as [[]|c|e]; [discriminate| |].
    + now rewrite (bind_exits _ _ _ _ _ H1).
    + now rewrite (bind_raises _ _ _ _ _ H1).
  - intros st1 r2 st2 H1 H2 Hr. unfold main.
    rewrite (bind_returns _ _ _ _ _ H1).
    destruct r2 as [[]|c|e]; [discriminate| |].
    + now rewrite (bind_exits _ _ _ _ _ H2).
    + now rewrite (bind_raises _ _ _ _ _ H2).
  - exact H3.
  - split.
    + unfold main, bind.
      destruct (check_pip3 w st) as [[[]|c|e] st1]; try discriminate.
      destruct (check_config w st1) as [[[]|c|e] st2] eqn:H2;
        try discriminate.
      intros _. now exists st1, st2.
    + intros (st1 & st2 & H1 & H2). now rewrite (H3 st1 st2 H1 H2).
  - intros st1 dir out err H1 He Hd HP.
    rewrite (H3 st1 _ H1 (check_config_passes w st1 dir out err He Hd HP)).
    now rewrite emit_emit.
Qed.

Lemma main_runs_stages_in_order_witness :
  main healthy start
  = (Ret tt,
     {| printed :=
          [lit "??: Checking package requests";
           running (lit "pip3 show requests");
           lit "OK: package requests>=2.0";
           lit "??: Checking configuration";
           running (lit "/opt/pattoo-web/setup/_check_config.py");
           lit "OK: Configuration check passed";
           next_steps_message];
        spawned :=
          [[lit "pip3"; lit "show"; lit "requests"];
           [lit "/opt/pattoo-web/setup/_check_config.py"]] |}).
Proof.
  refine (proj2 (proj2 (proj2 (proj2
            (main_runs_stages_in_order healthy start))))
            {| printed :=
                 [lit "??: Checking package requests";
                  running (lit "pip3 show requests");
                  lit "OK: package requests>=2.0"];
               spawned := [[lit "pip3"; lit "show"; lit "requests"]] |}
            (lit "/etc/pattoo") [] [] _ _ _ _).
  - vm_compute. reflexivity.
  - reflexivity.
  - reflexivity.
  - reflexivity.
Defined.

End PipelineClaims.

(** ** Claims about the daemon launcher *)

Module WebdClaims.

Import Webd.

(** C8. The API agent is controlled first. When its control call
    returns, whatever value it returns, the proxy agent is controlled
    next; when it does not return (it leaves through [sys.exit] or raises)
    the run ends there and the proxy agent is never controlled. *)
Theorem control_api_before_proxy {Cfg App R : Type}
    (w : world Cfg App R) (config : Cfg) (calls : list (agent Cfg App)) :
  Config w = Ret config ->
  let agent_api :=
    AgentAPI PATTOO_WEBD_NAME PATTOO_WEBD_PROXY (PATTOO_WEBD w) config in
  let agent_gunicorn := Agent PATTOO_WEBD_PROXY config in
  (forall v, control w calls agent_api = Ret v ->
     snd (main w calls) = calls ++ [agent_api; agent_gunicorn])
  /\ (forall c, control w calls agent_api = Exit c ->
        main w calls = (Exit c, calls ++ [agent_api]))
  /\ (forall e, control w calls agent_api = Raise e ->
        main w calls = (Raise e, calls ++ [agent_api])).
Proof.
  intros HC agent_api agent_gunicorn.
  unfold main, bind, new_config, cli_control. rewrite HC.
  fold agent_api. fold agent_gunicorn.
  repeat split.
  - intros v Hv. rewrite Hv.
    destruct (control w (calls ++ [agent_api]) agent_gunicorn);
      simpl; now rewrite <- app_assoc.
  - intros c Hc. now rewrite Hc.
  - intros e He. now rewrite He.
Qed.

Lemma control_api_before_proxy_witness :
  snd (main obliging [])
  = [AgentAPI PATTOO_WEBD_NAME PATTOO_WEBD_PROXY tt tt;
     Agent PATTOO_WEBD_PROXY tt]
  /\ main refusing []
     = (Exit 1, [AgentAPI PATTOO_WEBD_NAME PATTOO_WEBD_PROXY tt tt]).
Proof.
  split.
  - apply (proj1 (control_api_before_proxy obliging tt [] eq_refl) tt).
    reflexivity.
  - apply (proj1 (proj2 (control_api_before_proxy refusing tt [] eq_refl))
             1%Z).
    reflexivity.
Defined.

(** C9. Once [Config()] has returned the configuration object, the
    control calls of a run are made on exactly these descriptors, in this
    order: always the API agent, built from the name [pattoo_webd], the
    proxy name [pattoo_webd-gunicorn] and the application; then, when that
    call returns, the proxy agent, built from the name
    [pattoo_webd-gunicorn]. So the names controlled in a full run are
    [pattoo_webd] and that name followed by [-gunicorn], and the
    configuration both agents carry is the one object [Config()]
    returned. *)
Theorem two_agents_one_config {Cfg App R : Type}
    (w : world Cfg App R) (config : Cfg) (calls : list (agent Cfg App)) :
  Config w = Ret config ->
  snd (main w calls)
  = calls
    ++ AgentAPI (lit "pattoo_webd") (lit "pattoo_webd-gunicorn")
         (PATTOO_WEBD w) config
    :: (if returned
             (control w calls
                (AgentAPI (lit "pattoo_webd") (lit "pattoo_webd-gunicorn")
                   (PATTOO_WEBD w) config))
        then [Agent (lit "pattoo_webd-gunicorn") config]
        else [])
  /\ (returned
        (control w calls
           (AgentAPI (lit "pattoo_webd") (lit "pattoo_webd-gunicorn")
              (PATTOO_WEBD w) config)) = true ->
      map agent_name (skipn (List.length calls) (snd (main w calls)))
      = [lit "pattoo_webd"; lit "pattoo_webd" ++ lit "-gunicorn"]
      /\ map agent_config (skipn (List.length calls) (snd (main w calls)))
         = [config; config]).
Proof.
  intro HC.
  assert (E : snd (main w calls)
              = calls
                ++ AgentAPI (lit "pattoo_webd") (lit "pattoo_webd-gunicorn")
                     (PATTOO_WEBD w) config
                :: (if returned
                         (control w calls
                            (AgentAPI (lit "pattoo_webd")
                               (lit "pattoo_webd-gunicorn")
                               (PATTOO_WEBD w) config))
                    then [Agent (lit "pattoo_webd-gunicorn") config]
                    else [])).
  { unfold main, bind, new_config, cli_control. rewrite HC.
    change PATTOO_WEBD_NAME with (lit "pattoo_webd").
    change PATTOO_WEBD_PROXY with (lit "pattoo_webd-gunicorn").
    destruct (control w calls _) as [v|c|e]; cbn [returned snd].
    - destruct (control w (calls ++ _) _); cbn [snd];
        now rewrite <- app_assoc.
    - reflexivity.
    - reflexivity. }
  split; [exact E|].
  intro Hr. rewrite E, Hr.
  rewrite skipn_app, skipn_all, Nat.sub_diag. split; reflexivity.
Qed.

Lemma two_agents_one_config_witness :
  snd (main obliging [])
  = [AgentAPI (lit "pattoo_webd") (lit "pattoo_webd-gunicorn") tt tt;
     Agent (lit "pattoo_webd-gunicorn") tt]
  /\ snd (main refusing [])
     = [AgentAPI (lit "pattoo_webd") (lit "pattoo_webd-gunicorn") tt tt].
Proof.
  split.
  - exact (proj1 (two_agents_one_config obliging tt [] eq_refl)).
  - exact (proj1 (two_agents_one_config refusing tt [] eq_refl)).
Defined.

End WebdClaims.

(** * Further properties *)

(** ** Splitting, stripping and package names *)

Module TextExtras.

Import Install Obs Shape Requirements TextFacts Hosts.

(** Every line the reading loop keeps is non-empty, is not a comment,
    holds no newline, and is already stripped: it begins and ends with a
    character that is not white space. *)
Theorem kept_lines_are_clean (text l : str) :
  In l (requirement_lines text) ->
  l <> []
  /\ startswith (lit "#") l = false
  /\ ~ In nl l
  /\ strip l = l
  /\ isspace (hd 0%N l) = false
  /\ isspace (last l 0%N) = false.
Proof.
  rewrite requirement_lines_kept. intro H.
  apply kept_origin in H as (raw & Hraw & -> & Hs).
  unfold skipped in Hs. apply orb_false_elim in Hs as [Hc Hb].
  apply negb_false_iff in Hb.
  assert (Hne : strip raw <> []).
  { intro E. rewrite E in Hb. discriminate. }
  repeat split.
  - exact Hne.
  - exact Hc.
  - intro Hin. apply strip_incl in Hin.
    exact (split_tokens nl text raw Hraw Hin).
  - apply strip_idem.
  - destruct (strip_ends raw) as [E|[H1 _]]; [contradiction | exact H1].
  - destruct (strip_ends raw) as [E|[_ H2]]; [contradiction | exact H2].
Qed.

Lemma kept_lines_are_clean_witness :
  lit "PyYAML" <> []
  /\ startswith (lit "#") (lit "PyYAML") = false
  /\ ~ In nl (lit "PyYAML")
  /\ strip (lit "PyYAML") = lit "PyYAML"
  /\ isspace (hd 0%N (lit "PyYAML")) = false
  /\ isspace (last (lit "PyYAML") 0%N) = false.
Proof.
  apply (kept_lines_are_clean requirements_demo (lit "PyYAML")).
  vm_compute. right. left. reflexivity.
Defined.

(** A name without '=' and '>' is its own package, and stays the package
    when a version constraint beginning with '=' or '>' follows it. *)
Theorem package_of_drops_constraint (name rest : str) :
  ~ In 61%N name -> ~ In 62%N name ->
  package_of name = name
  /\ package_of (name ++ 61%N :: rest) = name
  /\ package_of (name ++ 62%N :: rest) = name.
Proof.
  intros H1 H2. pose proof (plain_name name H1 H2) as Hp.
  rewrite !package_of_before. repeat split.
  - now apply before_none.
  - now apply before_stop.
  - now apply before_stop.
Qed.

Lemma package_of_drops_constraint_witness :
  package_of (lit "requests") = lit "requests"
  /\ package_of (lit "requests" ++ 61%N :: lit "=2.0") = lit "requests"
  /\ package_of (lit "requests" ++ 62%N :: lit "=2.0") = lit "requests".
Proof.
  apply (package_of_drops_constraint (lit "requests") (lit "=2.0")).
  - vm_compute. intuition discriminate.
  - vm_compute. intuition discriminate.
Defined.

(** Taking the package is idempotent, and the package is empty exactly
    for the empty line and for lines that begin with '=' or '>'. *)
Theorem package_of_idempotent (line : str) :
  package_of (package_of line) = package_of line
  /\ (package_of line = [] <->
      line = []
      \/ exists c rest, line = c :: rest /\ (c = 61%N \/ c = 62%N)).
Proof.
  rewrite !package_of_before. split.
  - apply before_none. intros c Hc.
    destruct (before_prefix is_eq_or_gt line) as (r & _ & Hb & _). auto.
  - destruct line as [|c rest]; cbn [before].
    + split; auto.
    + unfold is_eq_or_gt at 1.
      destruct (N.eqb_spec 61 c) as [<-|H1]; cbn [orb].
      * split; [right; eauto | reflexivity].
      * destruct (N.eqb_spec 62 c) as [<-|H2].
        -- split; [right; eauto | reflexivity].
        -- split; [discriminate|].
           intros [E|(c' & r' & E & [->| ->])]; [discriminate| |];
             congruence.
Qed.

Lemma package_of_idempotent_witness :
  package_of (lit "==1.0") = [].
Proof.
  apply (proj2 (package_of_idempotent (lit "==1.0"))).
  right. exists 61%N, (lit "=1.0"). split; [reflexivity | now left].
Defined.

(** The command of a line is tokenised into [pip3], [show] and the pieces
    of the package between spaces: the package alone when it has no space,
    and the name followed by an empty argument when the name is separated
    from the constraint by one space. *)
Theorem pip_command_arguments (line : str) :
  argv_of line
  = lit "pip3" :: lit "show" :: split 32 None (package_of line)
  /\ (~ In 32%N (package_of line) ->
      argv_of line = [lit "pip3"; lit "show"; package_of line])
  /\ (forall name, ~ In 32%N name -> package_of line = name ++ [32%N] ->
      argv_of line = [lit "pip3"; lit "show"; name; []]).
Proof.
  assert (H : argv_of line
              = lit "pip3" :: lit "show" :: split 32 None (package_of line))
    by reflexivity.
  split; [exact H|]. split.
  - intro Hs. rewrite H. now rewrite (split_whole 32 _ Hs).
  - intros name Hn Hp. rewrite H, Hp.
    now rewrite (split_first 32 name [] Hn).
Qed.

Lemma pip_command_arguments_witness :
  argv_of (lit "requests>=2.0") = [lit "pip3"; lit "show"; lit "requests"]
  /\ argv_of (lit "requests >=2.0")
     = [lit "pip3"; lit "show"; lit "requests"; []].
Proof.
  split.
  - apply (proj1 (proj2 (pip_command_arguments (lit "requests>=2.0")))).
    vm_compute. intuition discriminate.
  - apply (proj2 (proj2 (pip_command_arguments (lit "requests >=2.0")))
             (lit "requests")).
    + vm_compute. intuition discriminate.
    + reflexivity.
Defined.

End TextExtras.

(** ** The command runner *)

Module RunnerExtras.

Import Install Obs Shape RunScript RunFacts TextFacts Hosts.

(** A command that exits with code 0 has its code and captured bytes
    handed back untouched, whatever [die] is and whether or not the bytes
    are valid text; only the progress line is printed. *)
Theorem run_script_success (w : world) (cli_string : str) (die : bool)
    (st : state) (out err : bytes) :
  Popen w (spawned st) (split 32 None cli_string) = Completed 0 out err ->
  _run_script w cli_string die st
  = (Ret (0%Z, out, err),
     {| printed :=
          printed st
          ++ [lit "Running Command: " ++ quote ++ cli_string ++ quote];
        spawned := spawned st ++ [split 32 None cli_string] |}).
Proof. intro H. exact (run_zero w cli_string die st out err H). Qed.

Lemma run_script_success_witness :
  _run_script healthy (lit "pip3 show requests") true start
  = (Ret (0%Z, [], []),
     {| printed :=
          [lit "Running Command: " ++ quote ++ lit "pip3 show requests"
           ++ quote];
        spawned := [[lit "pip3"; lit "show"; lit "requests"]] |}).
Proof.
  apply (run_script_success healthy (lit "pip3 show requests") true start).
  reflexivity.
Defined.

(** A command that exits with a non-zero code, both of whose streams are
    valid UTF-8, is reported in full: the progress line, the return code,
    each line of the standard output after [STDOUT: ], each line of the
    standard error after [STDERR: ], in this order. Then the process exits
    with code 2 when [die] is true, and the code and bytes are handed back
    when it is false. *)
Theorem run_script_reports_failure (w : world) (cli_string : str)
    (die : bool) (st : state) (rc : Z) (out err : bytes) (so se : str) :
  Popen w (spawned st) (split 32 None cli_string) = Completed rc out err ->
  rc <> 0%Z -> decode out = Some so -> decode err = Some se ->
  _run_script w cli_string die st
  = ((if die then Exit 2 else Ret (rc, out, err)),
     {| printed :=
          printed st
          ++ [lit "Running Command: " ++ quote ++ cli_string ++ quote;
              lit "Return code:" ++ str_of_int rc]
          ++ map (fun line => lit "STDOUT: " ++ line) (split nl None so)
          ++ map (fun line => lit "STDERR: " ++ line) (split nl None se);
        spawned := spawned st ++ [split 32 None cli_string] |}).
Proof.
  intros H Hrc Ho He.
  exact (run_nonzero w cli_string die st rc out err so se H Hrc Ho He).
Qed.

Lemma run_script_reports_failure_witness :
  _run_script bad_schema (lit "/opt/pattoo-web/setup/_check_config.py")
    true start
  = (Exit 2,
     {| printed :=
          [lit "Running Command: " ++ quote
           ++ lit "/opt/pattoo-web/setup/_check_config.py" ++ quote;
           lit "Return code:4";
           lit "STDOUT: ";
           lit "STDERR: polling_interval missing"];
        spawned := [[lit "/opt/pattoo-web/setup/_check_config.py"]] |}).
Proof.
  apply (run_script_reports_failure bad_schema
           (lit "/opt/pattoo-web/setup/_check_config.py") true start
           4%Z [] (list_byte_of_string "polling_interval missing")
           [] (lit "polling_interval missing")).
  - reflexivity.
  - discriminate.
  - reflexivity.
  - reflexivity.
Defined.

(** Output made of bytes below 128 always decodes, to the characters with
    those codes; so a failing command with such output never makes the
    runner raise. *)
Theorem run_script_ascii_output (w : world) (cli_string : str) (die : bool)
    (st : state) (rc : Z) (out err : bytes) :
  Popen w (spawned st) (split 32 None cli_string) = Completed rc out err ->
  rc <> 0%Z -> ascii_only out = true -> ascii_only err = true ->
  decode out = Some (text_of out)
  /\ decode err = Some (text_of err)
  /\ fst (_run_script w cli_string die st)
     = (if die then Exit 2 else Ret (rc, out, err)).
Proof.
  intros H Hrc Ho He.
  pose proof (decode_ascii out Ho) as Hdo.
  pose proof (decode_ascii err He) as Hde.
  repeat split; auto.
  now rewrite (run_nonzero w cli_string die st rc out err _ _ H Hrc Hdo Hde).
Qed.

Lemma run_script_ascii_output_witness :
  decode [] = Some (text_of [])
  /\ decode (list_byte_of_string "polling_interval missing")
     = Some (text_of (list_byte_of_string "polling_interval missing"))
  /\ fst (_run_script bad_schema (lit "check") false start)
     = Ret (4%Z, [], list_byte_of_string "polling_interval missing").
Proof.
  apply (run_script_ascii_output bad_schema (lit "check") false start
           4%Z [] (list_byte_of_string "polling_interval missing")).
  - reflexivity.
  - discriminate.
  - reflexivity.
  - reflexivity.
Defined.

(** The ways a call can end. It returns a triple, exits with code 2, or
    raises [UnicodeDecodeError]: no other exit code and no other
    exception. It exits only when [die] is true; with [die] true it
    returns only the code 0; a code it returns is the command's own or, if
    the launch failed, 1 with empty streams; and it raises only for a
    failing command one of whose streams does not decode. *)
Theorem run_script_outcomes (w : world) (cli_string : str) (die : bool)
    (st : state) :
  (exists rc out err,
     fst (_run_script w cli_string die st) = Ret (rc, out, err)
     /\ (die = true -> rc = 0%Z)
     /\ (Popen w (spawned st) (split 32 None cli_string)
         = Completed rc out err
         \/ (rc = 1%Z /\ out = [] /\ err = []
             /\ exists ty val tb fe,
                  Popen w (spawned st) (split 32 None cli_string)
                  = Failed ty val tb fe)))
  \/ (die = true
      /\ fst (_run_script w cli_string die st) = Exit 2
      /\ forall out err,
           Popen w (spawned st) (split 32 None cli_string)
           <> Completed 0 out err)
  \/ (fst (_run_script w cli_string die st) = Raise UnicodeDecodeError
      /\ exists rc out err,
           Popen w (spawned st) (split 32 None cli_string)
           = Completed rc out err
           /\ rc <> 0%Z /\ (decode out = None \/ decode err = None)).
Proof.
  destruct (run_cases w cli_string die st)
    as [(out & err & HP & E)
       |[(rc & out & err & so & se & HP & Hrc & _ & _ & E)
        |[(rc & out & err & HP & Hrc & Hd & E)
         |(ty & val & tb & fe & HP & E)]]];
    unfold argv_of_command in HP; rewrite E; cbn [fst].
  - left. exists 0%Z, out, err. auto.
  - destruct die.
    + right; left. repeat split. intros o e Heq. rewrite HP in Heq.
      injection Heq as Heq _ _. contradiction.
    + left. exists rc, out, err. repeat split; [discriminate | auto].
  - right; right. split; [reflexivity|]. exists rc, out, err. auto.
  - destruct die.
    + right; left. repeat split. intros o e Heq. rewrite HP in Heq.
      discriminate.
    + left. exists 1%Z, [], []. repeat split; [discriminate|].
      right. repeat split. eauto.
Qed.

(** Each call spawns exactly one process and alters nothing printed or
    spawned before it. The argument vector holds at least one token, no
    token holds a space, and the tokens joined by single spaces spell the
    command string; the progress line is the first thing the call
    prints. *)
Theorem run_script_spawns_the_command (w : world) (cli_string : str)
    (die : bool) (st : state) :
  exists argv diag,
    spawned (snd (_run_script w cli_string die st)) = spawned st ++ [argv]
    /\ argv <> []
    /\ join 32 argv = cli_string
    /\ (forall token, In token argv -> ~ In 32%N token)
    /\ printed (snd (_run_script w cli_string die st))
       = printed st
         ++ (lit "Running Command: " ++ quote ++ cli_string ++ quote)
         :: diag.
Proof.
  destruct (run_prints_first w cli_string die st) as (diag & Hd).
  exists (split 32 None cli_string), diag. repeat split.
  - exact (run_spawns_one w cli_string die st).
  - apply split_nonempty.
  - apply join_split.
  - apply split_tokens.
  - exact Hd.
Qed.

End RunnerExtras.

(** ** The dependency check *)

Module PipExtras.

Import Install Obs Shape RunScript RunFacts PipCheck PipFacts Hosts.

(** The dependency check returns exactly when the command of every kept
    line exits with code 0; it has then printed three lines for each
    requirement (the announcement, the progress line of the runner, the
    confirmation) and spawned one process for each, in file order. *)
Theorem check_pip3_passes_iff_all_installed (w : world) (st : state)
    (text : str) :
  regular_file w (requirements_path w) = Some text ->
  (returned (fst (check_pip3 w st)) = true
   <-> installed w (spawned st) (requirement_lines text) = true)
  /\ (installed w (spawned st) (requirement_lines text) = true ->
      check_pip3 w st
      = (Ret tt,
         {| printed :=
              printed st
              ++ flat_map
                   (fun line =>
                      [lit "??: Checking package " ++ package_of line;
                       lit "Running Command: " ++ quote
                       ++ (lit "pip3 show " ++ package_of line) ++ quote;
                       lit "OK: package " ++ line])
                   (requirement_lines text);
            spawned :=
              spawned st
              ++ map (fun line =>
                        split 32 None (lit "pip3 show " ++ package_of line))
                     (requirement_lines text) |})).
Proof.
  intro Hfile. rewrite (check_pip3_reads w st text Hfile). split.
  - apply check_lines_returns.
  - intro Hin.
    rewrite <- (app_nil_r (requirement_lines text)) at 1.
    rewrite (check_lines_installed w _ [] st Hin). reflexivity.
Qed.

Lemma check_pip3_passes_iff_all_installed_witness :
  check_pip3 healthy start
  = (Ret tt,
     {| printed :=
          [lit "??: Checking package requests";
           lit "Running Command: " ++ quote ++ lit "pip3 show requests"
           ++ quote;
           lit "OK: package requests>=2.0"];
        spawned := [[lit "pip3"; lit "show"; lit "requests"]] |}).
Proof.
  apply (proj2 (check_pip3_passes_iff_all_installed healthy start
                  (lit "requests>=2.0" ++ [nl]) eq_refl)).
  reflexivity.
Defined.

(** Without a regular file at the requirements path the check is fatal
    (exit code 3) with nothing checked. With the file read, when the
    commands of the lines before [line] all exit with 0 and the runner
    hands back a non-zero code for [line], the check ends there with exit
    code 3: after the runner's report only the fatal message is printed,
    and the processes spawned are those of the lines up to [line], none of
    a later line. *)
Theorem check_pip3_halts_at_first_missing (w : world) (st : state) :
  (isfile w (requirements_path w) = false ->
   check_pip3 w st
   = (Exit 3,
      emit st [fatal (lit "Cannot find PIP3 requirements file "
                      ++ requirements_path w)] []))
  /\ (forall text pre line post rc out err st2,
        regular_file w (requirements_path w) = Some text ->
        requirement_lines text = pre ++ line :: post ->
        installed w (spawned st) pre = true ->
        _run_script w (command_of line) false
          (emit st (flat_map passed pre ++ [checking line])
                (map argv_of pre))
        = (Ret (rc, out, err), st2) ->
        rc <> 0%Z ->
        check_pip3 w st
        = (Exit 3, emit st2 [fatal (not_installed (package_of line))] [])
        /\ spawned st2 = spawned st ++ map argv_of (pre ++ [line])).
Proof.
  split.
  - exact (check_pip3_no_file w st).
  - intros text pre line post rc out err st2 Hfile Hlines Hpre Hrun Hrc.
    rewrite (check_pip3_reads w st text Hfile), Hlines.
    rewrite (check_lines_installed w pre (line :: post) st Hpre).
    assert (Hst : emit (emit st (flat_map passed pre) (map argv_of pre))
                    [checking line] []
                  = emit st (flat_map passed pre ++ [checking line])
                      (map argv_of pre))
      by (now rewrite emit_emit, app_nil_r).
    rewrite <- Hst in Hrun.
    rewrite (check_lines_step w line post _ _ _ Hrun).
    rewrite (nonzero_true rc Hrc). split; [reflexivity|].
    assert (Hsp := run_spawns_one w (command_of line) false
                     (emit (emit st (flat_map passed pre) (map argv_of pre))
                        [checking line] [])).
    rewrite Hrun in Hsp. cbn [snd emit spawned] in Hsp.
    rewrite Hsp, app_nil_r, map_app, <- app_assoc. reflexivity.
Qed.

Lemma check_pip3_halts_at_first_missing_witness :
  check_pip3 garbled start
  = (Exit 3,
     emit start
       [fatal (lit "Cannot find PIP3 requirements file "
               ++ requirements_path garbled)] [])
  /\ check_pip3 missing_yaml start
     = (Exit 3,
        {| printed :=
             [lit "??: Checking package requests";
              running (lit "pip3 show requests");
              lit "OK: package requests>=2.0";
              lit "??: Checking package PyYAML";
              running (lit "pip3 show PyYAML");
              lit "Return code:1";
              lit "STDOUT: ";
              lit "STDERR: WARNING: Package(s) not found: PyYAML";
              fatal (not_installed (lit "PyYAML"))];
           spawned :=
             [[lit "pip3"; lit "show"; lit "requests"];
              [lit "pip3"; lit "show"; lit "PyYAML"]] |}).
Proof.
  split.
  - apply (proj1 (check_pip3_halts_at_first_missing garbled start)).
    reflexivity.
  - refine (proj1 (proj2 (check_pip3_halts_at_first_missing
                            missing_yaml start)
                     requirements_demo [lit "requests>=2.0"] (lit "PyYAML")
                     [lit "Flask==1.1"] 1%Z [] not_found
                     {| printed :=
                          [lit "??: Checking package requests";
                           running (lit "pip3 show requests");
                           lit "OK: package requests>=2.0";
                           lit "??: Checking package PyYAML";
                           running (lit "pip3 show PyYAML");
                           lit "Return code:1";
                           lit "STDOUT: ";
                           lit "STDERR: WARNING: Package(s) not found: PyYAML"];
                        spawned :=
                          [[lit "pip3"; lit "show"; lit "requests"];
                           [lit "pip3"; lit "show"; lit "PyYAML"]] |}
                     _ _ _ _ _)).
    + reflexivity.
    + reflexivity.
    + reflexivity.
    + vm_compute. reflexivity.
    + discriminate.
Defined.

(** How the dependency check can end. Without a regular file at the
    requirements path it exits with code 3. With a file that cannot be
    opened or read through, it raises what [open] or [readline] raised,
    having printed and spawned nothing. With the file read, it returns,
    exits with code 3, or lets the runner's [UnicodeDecodeError] escape. It
    never exits with the runner's code 2 nor with any code but 3. *)
Theorem check_pip3_outcomes (w : world) (st : state) :
  (isfile w (requirements_path w) = false
   /\ check_pip3 w st
      = (Exit 3,
         emit st [fatal (lit "Cannot find PIP3 requirements file "
                         ++ requirements_path w)] []))
  \/ (isfile w (requirements_path w) = true
      /\ exists e,
           open_read w (requirements_path w) = ReadError e
           /\ check_pip3 w st = (Raise e, st))
  \/ (exists text,
        regular_file w (requirements_path w) = Some text
        /\ (fst (check_pip3 w st) = Ret tt
            \/ fst (check_pip3 w st) = Exit 3
            \/ fst (check_pip3 w st) = Raise UnicodeDecodeError)).
Proof. exact (check_pip3_kinds w st). Qed.

(** When [pip3] cannot be launched for the first requirement, the check
    stops there: it prints what the runner recorded about the exception,
    the sentinel return code and the two empty streams, then the fatal
    message naming the package, and exits with code 3 after that single
    attempt. *)
Theorem check_pip3_without_pip (w : world) (st : state)
    (text line : str) (post : list str) (ty val tb fe : str) :
  regular_file w (requirements_path w) = Some text ->
  requirement_lines text = line :: post ->
  Popen w (spawned st)
    (split 32 None (lit "pip3 show " ++ package_of line))
  = Failed ty val tb fe ->
  check_pip3 w st
  = (Exit 3,
     {| printed :=
          printed st
          ++ [lit "??: Checking package " ++ package_of line;
              lit "Running Command: " ++ quote
              ++ (lit "pip3 show " ++ package_of line) ++ quote;
              bug_message ty val tb; fe;
              lit "Return code:1"; lit "STDOUT: "; lit "STDERR: ";
              [nl] ++ lit "PATTOO Error: "
              ++ not_installed (package_of line)];
        spawned :=
          spawned st
          ++ [split 32 None (lit "pip3 show " ++ package_of line)] |}).
Proof.
  intros Hfile Hlines HP.
  rewrite (check_pip3_reads w st text Hfile), Hlines.
  assert (Hrun := run_failed w (command_of line) false
                    (emit st [checking line] []) ty val tb fe).
  cbn [emit spawned] in Hrun. rewrite app_nil_r in Hrun.
  specialize (Hrun HP).
  rewrite (check_lines_step w line post st _ _ Hrun).
  cbn [nonzero Z.eqb negb]. rewrite !emit_emit. reflexivity.
Qed.

Lemma check_pip3_without_pip_witness :
  check_pip3 no_pip start
  = (Exit 3,
     {| printed :=
          [lit "??: Checking package requests";
           lit "Running Command: " ++ quote ++ lit "pip3 show requests"
           ++ quote;
           bug_message (lit "<class 'FileNotFoundError'>")
             (lit "[Errno 2] No such file or directory: 'pip3'")
             (lit "<traceback object>");
           lit "Traceback (most recent call last):";
           lit "Return code:1"; lit "STDOUT: "; lit "STDERR: ";
           [nl] ++ lit "PATTOO Error: " ++ not_installed (lit "requests")];
        spawned := [[lit "pip3"; lit "show"; lit "requests"]] |}).
Proof.
  apply (check_pip3_without_pip no_pip start
           (lit "requests>=2.0" ++ [nl] ++ lit "PyYAML" ++ [nl])
           (lit "requests>=2.0") [lit "PyYAML"]).
  - reflexivity.
  - reflexivity.
  - reflexivity.
Defined.

End PipExtras.

(** ** The configuration check *)

Module ConfigExtras.

Import Install Obs Shape RunScript RunFacts PipCheck TextFacts ConfigFacts.
Import Hosts.

(** The configuration check either stops before the schema check, with
    exit code 3 and no process spawned, which happens exactly when the
    variable is unset or names no directory; or it spawns the schema check,
    once, and then returns, exits with code 2 or lets the runner's
    [UnicodeDecodeError] escape. The lookup [os.environ[...]] that follows
    the membership test never raises [KeyError]. *)
Theorem check_config_outcomes (w : world) (st : state) :
  (fst (check_config w st) = Exit 3
   /\ spawned (snd (check_config w st)) = spawned st
   /\ (environ w PATTOO_CONFIGDIR = None
       \/ exists dir, environ w PATTOO_CONFIGDIR = Some dir
                      /\ isdir w dir = false))
  \/ (exists dir,
        environ w PATTOO_CONFIGDIR = Some dir /\ isdir w dir = true
        /\ spawned (snd (check_config w st))
           = spawned st ++ [split 32 None (check_config_path w)]
        /\ (fst (check_config w st) = Ret tt
            \/ fst (check_config w st) = Exit 2
            \/ fst (check_config w st) = Raise UnicodeDecodeError)).
Proof. exact (check_config_cases w st). Qed.

(** A schema check that exits with a non-zero code and valid UTF-8 output
    ends the configuration check with exit code 2, after the runner's full
    report; one that cannot be launched does the same. In neither case is
    the confirmation line printed. *)
Theorem check_config_schema_failure (w : world) (st : state) (dir : str) :
  environ w PATTOO_CONFIGDIR = Some dir -> isdir w dir = true ->
  (forall rc out err so se,
     Popen w (spawned st) (split 32 None (check_config_path w))
     = Completed rc out err ->
     rc <> 0%Z -> decode out = Some so -> decode err = Some se ->
     check_config w st
     = (Exit 2,
        {| printed :=
             printed st
             ++ [lit "??: Checking configuration";
                 lit "Running Command: " ++ quote ++ check_config_path w
                 ++ quote;
                 lit "Return code:" ++ str_of_int rc]
             ++ map (fun line => lit "STDOUT: " ++ line) (split nl None so)
             ++ map (fun line => lit "STDERR: " ++ line) (split nl None se);
           spawned :=
             spawned st ++ [split 32 None (check_config_path w)] |}))
  /\ (forall ty val tb fe,
        Popen w (spawned st) (split 32 None (check_config_path w))
        = Failed ty val tb fe ->
        check_config w st
        = (Exit 2,
           {| printed :=
                printed st
                ++ [lit "??: Checking configuration";
                    lit "Running Command: " ++ quote ++ check_config_path w
                    ++ quote;
                    bug_message ty val tb; fe;
                    lit "Return code:1"; lit "STDOUT: "; lit "STDERR: "];
              spawned :=
                spawned st ++ [split 32 None (check_config_path w)] |})).
Proof.
  intros He Hd. split.
  - intros rc out err so se HP Hrc Ho Hs.
    rewrite (check_config_runs w st dir He Hd).
    assert (Hrun := run_nonzero w (check_config_path w) true
                      (emit st [announce] []) rc out err so se).
    cbn [emit spawned] in Hrun. rewrite app_nil_r in Hrun.
    rewrite (Hrun HP Hrc Ho Hs). unfold emit; cbn [printed spawned].
    rewrite <- !app_assoc. reflexivity.
  - intros ty val tb fe HP.
    rewrite (check_config_runs w st dir He Hd).
    assert (Hrun := run_failed w (check_config_path w) true
                      (emit st [announce] []) ty val tb fe).
    cbn [emit spawned] in Hrun. rewrite app_nil_r in Hrun.
    rewrite (Hrun HP). unfold emit; cbn [printed spawned].
    rewrite <- !app_assoc. reflexivity.
Qed.

Lemma check_config_schema_failure_witness :
  check_config bad_schema start
  = (Exit 2,
     {| printed :=
          [lit "??: Checking configuration";
           lit "Running Command: " ++ quote
           ++ lit "/opt/pattoo-web/setup/_check_config.py" ++ quote;
           lit "Return code:4";
           lit "STDOUT: ";
           lit "STDERR: polling_interval missing"];
        spawned := [[lit "/opt/pattoo-web/setup/_check_config.py"]] |}).
Proof.
  apply (proj1 (check_config_schema_failure bad_schema start
                  (lit "/etc/pattoo") eq_refl eq_refl)
           4%Z [] (list_byte_of_string "polling_interval missing")
           [] (lit "polling_interval missing")).
  - reflexivity.
  - discriminate.
  - reflexivity.
  - reflexivity.
Defined.

(** The schema check is launched from the path of the script cut at its
    spaces. When the installation directory has no space the process is the
    script with no argument; when it has one, the program launched is a
    space-free piece that is not the script, followed by at least one
    argument. *)
Theorem check_config_path_is_cut_at_spaces (w : world) (st : state)
    (dir : str) :
  environ w PATTOO_CONFIGDIR = Some dir -> isdir w dir = true ->
  (~ In 32%N (ROOT_DIR w) ->
   spawned (snd (check_config w st))
   = spawned st ++ [[check_config_path w]])
  /\ (In 32%N (ROOT_DIR w) ->
      exists program arguments,
        spawned (snd (check_config w st))
        = spawned st ++ [program :: arguments]
        /\ arguments <> []
        /\ ~ In 32%N program
        /\ program <> check_config_path w).
Proof.
  intros He Hd.
  assert (Hs : spawned (snd (check_config w st))
               = spawned st ++ [split 32 None (check_config_path w)]).
  { rewrite (check_config_runs w st dir He Hd).
    pose proof (run_spawns_one w (check_config_path w) true
                  (emit st [announce] [])) as Hs.
    destruct (_run_script w (check_config_path w) true
                (emit st [announce] [])) as [[r|c|e] st2];
      cbn [snd emit spawned] in *; rewrite ?app_nil_r in *; exact Hs. }
  split.
  - intro Hn. rewrite Hs, split_whole; [reflexivity|].
    intro H. apply Hn. now apply path_space.
  - intro Hy. apply path_space in Hy.
    destruct (split_more 32 _ Hy) as (h & t & E & Ht).
    exists h, t. rewrite Hs, E. repeat split; [exact Ht| |].
    + apply (split_tokens 32 (check_config_path w)). rewrite E. now left.
    + intros ->.
      apply (split_tokens 32 (check_config_path w) (check_config_path w));
        [rewrite E; now left | exact Hy].
Qed.

Lemma check_config_path_is_cut_at_spaces_witness :
  spawned (snd (check_config healthy start))
  = [[lit "/opt/pattoo-web/setup/_check_config.py"]]
  /\ exists program arguments,
       spawned (snd (check_config spaced start))
       = spawned start ++ [program :: arguments]
       /\ arguments <> []
       /\ ~ In 32%N program
       /\ program <> check_config_path spaced.
Proof.
  split.
  - apply (proj1 (check_config_path_is_cut_at_spaces healthy start
                    (lit "/etc/pattoo") eq_refl eq_refl)).
    vm_compute. intuition discriminate.
  - apply (proj2 (check_config_path_is_cut_at_spaces spaced start
                    (lit "/etc/pattoo") eq_refl eq_refl)).
    vm_compute. do 7 right. left. reflexivity.
Defined.

End ConfigExtras.

(** ** The pipeline *)

Module MainExtras.

Import Install Obs Shape RunScript RunFacts PipCheck PipFacts ConfigFacts.
Import Hosts.

(** How the installer can end: it returns, it exits with code 2 or 3,
    the runner's [UnicodeDecodeError] escapes, or the exception raised
    while the requirements file is opened and read escapes, before
    anything is printed. It exits with no other code; and exit code 2 can
    only come from the schema check: the dependency check has then
    returned. *)
Theorem main_outcomes (w : world) (st : state) :
  (fst (main w st) = Ret tt
   \/ fst (main w st) = Exit 2
   \/ fst (main w st) = Exit 3
   \/ fst (main w st) = Raise UnicodeDecodeError
   \/ (exists e,
         isfile w (requirements_path w) = true
         /\ open_read w (requirements_path w) = ReadError e
         /\ main w st = (Raise e, st)))
  /\ (fst (main w st) = Exit 2 ->
      returned (fst (check_pip3 w st)) = true).
Proof.
  unfold main, bind.
  destruct (check_pip3_kinds w st)
    as [[_ E]|[(Hf & e & Ho & E)|(text & _ & H1)]].
  - rewrite E. cbn [fst]. split; [auto | discriminate].
  - rewrite E. cbn [fst]. split; [|discriminate].
    do 4 right. exists e. auto.
  - destruct (check_pip3 w st) as [r1 st1]. cbn [fst] in *.
    destruct H1 as [->|[->| ->]]; cbn [fst returned].
    + pose proof (check_config_cases w st1) as H2.
      destruct (check_config w st1) as [r2 st2]. cbn [fst] in *.
      destruct H2 as [(E & _)|(dir & _ & _ & _ & [E|[E|E]])]; subst r2;
        cbn [fst]; auto 6.
    + split; [auto | discriminate].
    + split; [auto 6 | discriminate].
Qed.

Lemma main_outcomes_witness :
  returned (fst (check_pip3 installed_bad_schema start)) = true.
Proof.
  apply (proj2 (main_outcomes installed_bad_schema start)).
  vm_compute. reflexivity.
Defined.

End MainExtras.

(** ** The daemon launcher *)

Module WebdExtras.

Import Webd Shape.

(** When [Config()] does not return, the launcher ends with its outcome
    and controls no agent. *)
Theorem launcher_needs_configuration {Cfg App R : Type}
    (w : world Cfg App R) (calls : list (agent Cfg App)) :
  (forall c, Config w = Exit c -> main w calls = (Exit c, calls))
  /\ (forall e, Config w = Raise e -> main w calls = (Raise e, calls)).
Proof.
  split; intros x H; unfold main, bind, new_config; now rewrite H.
Qed.

Lemma launcher_needs_configuration_witness :
  main unconfigured [] = (Exit 1, []).
Proof.
  apply (proj1 (launcher_needs_configuration unconfigured []) 1%Z).
  reflexivity.
Defined.

(** The launcher returns exactly when [Config()], the control call on the
    API agent and then the control call on the proxy agent all return; and
    when the proxy's control call is the one that does not return, both
    agents have been controlled and the launcher ends with the proxy's
    outcome. *)
Theorem launcher_returns_iff {Cfg App R : Type}
    (w : world Cfg App R) (calls : list (agent Cfg App)) :
  (returned (fst (main w calls)) = true <->
   exists config v1 v2,
     Config w = Ret config
     /\ control w calls
          (AgentAPI PATTOO_WEBD_NAME PATTOO_WEBD_PROXY (PATTOO_WEBD w)
             config)
        = Ret v1
     /\ control w
          (calls ++ [AgentAPI PATTOO_WEBD_NAME PATTOO_WEBD_PROXY
                       (PATTOO_WEBD w) config])
          (Agent PATTOO_WEBD_PROXY config)
        = Ret v2)
  /\ (forall config v1 c,
        Config w = Ret config ->
        control w calls
          (AgentAPI PATTOO_WEBD_NAME PATTOO_WEBD_PROXY (PATTOO_WEBD w)
             config)
        = Ret v1 ->
        control w
          (calls ++ [AgentAPI PATTOO_WEBD_NAME PATTOO_WEBD_PROXY
                       (PATTOO_WEBD w) config])
          (Agent PATTOO_WEBD_PROXY config)
        = Exit c ->
        main w calls
        = (Exit c,
           calls ++ [AgentAPI PATTOO_WEBD_NAME PATTOO_WEBD_PROXY
                       (PATTOO_WEBD w) config;
                     Agent PATTOO_WEBD_PROXY config])).
Proof.
  split.
  - unfold main, bind, new_config, cli_control. split.
    + destruct (Config w) as [config|c|e]; try discriminate.
      destruct (control w calls _) as [v1|c|e] eqn:H1; try discriminate.
      destruct (control w (calls ++ _) _) as [v2|c|e] eqn:H2;
        try discriminate.
      intros _. exists config, v1, v2. auto.
    + intros (config & v1 & v2 & HC & H1 & H2).
      rewrite HC, H1, H2. reflexivity.
  - intros config v1 c HC H1 H2.
    unfold main, bind, new_config, cli_control.
    rewrite HC, H1, H2. now rewrite <- app_assoc.
Qed.

Lemma launcher_returns_iff_witness :
  returned (fst (main obliging [])) = true.
Proof.
  apply (proj1 (launcher_returns_iff obliging [])).
  exists tt, tt, tt. repeat split.
Defined.

End WebdExtras.
